(** * MD_VIEWER: a shallow embedding of [main.py]

    The program is one PyQt6 controller class, [MarkdownViewer].  Its
    instance fields and the observable state of the widgets it owns are
    gathered in records; every method becomes a function on the state of
    the application ([World]), taking as explicit arguments what the
    outside supplies at that call (the answer of a dialog, the outcome of
    a network request).  Calls into the toolkit that leave the program
    are appended to a trace.  Third-party routines the program delegates
    to (markdown2, Pygments) are fields of an environment record. *)

From Stdlib Require Import ZArith Lia Ascii String.
From stdpp Require Import base option list strings gmap pretty.

Local Open Scope string_scope.

(** ** Python values and built-ins used by the program *)

Module Py.

(** Exceptions, with the text [str(e)] that the handlers interpolate
    into their messages. *)
Inductive Exception :=
| KeyError (msg : string)
| IndexError (msg : string)
| ValueError (msg : string)
| OSError (msg : string)
| RuntimeError (msg : string).

Definition str_of_exception (e : Exception) : string :=
  match e with
  | KeyError m | IndexError m | ValueError m | OSError m | RuntimeError m => m
  end.

(** Truth value of a [str] and of an optional [str] ([None] or a string). *)
Definition truthy (s : string) : bool :=
  match s with EmptyString => false | String _ _ => true end.

Definition truthy_opt (o : option string) : bool :=
  match o with None => false | Some s => truthy s end.

Definition lbrace : ascii := Ascii.ascii_of_nat 123.
Definition rbrace : ascii := Ascii.ascii_of_nat 125.
Definition slash : ascii := Ascii.ascii_of_nat 47.
Definition dquote : string := String (Ascii.ascii_of_nat 34) EmptyString.

Definition ascii_eqb (a b : ascii) : bool := Ascii.eqb a b.

(** Characters that may appear in a plain replacement field name.  A
    field with a conversion, a format specification, an attribute or an
    index is outside the fragment of [str.format] modelled here. *)
Definition plain_field_char (c : ascii) : bool :=
  negb (ascii_eqb c "!" || ascii_eqb c ":" || ascii_eqb c "." || ascii_eqb c "["
        || ascii_eqb c "]" || ascii_eqb c lbrace)%char.

Fixpoint kwargs_get (kw : list (string * string)) (name : string) : option string :=
  match kw with
  | [] => None
  | (k, v) :: kw' => if String.eqb k name then Some v else kwargs_get kw' name
  end.

Definition field_value (kw : list (string * string)) (name : string)
  : Exception + string :=
  match name with
  | EmptyString => inl (IndexError "Replacement index 0 out of range for positional args tuple")
  | _ => match kwargs_get kw name with
         | Some v => inr v
         | None => inl (KeyError name)
         end
  end.

(** [str.format] called with keyword arguments only.  [field] is [None]
    while literal text is scanned and [Some name] inside a replacement
    field whose name read so far is [name]. *)
Fixpoint format_from (field : option string) (kw : list (string * string))
         (t : string) : Exception + string :=
  match field, t with
  | None, EmptyString => inr EmptyString
  | None, String c t1 =>
      if ascii_eqb c lbrace then
        match t1 with
        | EmptyString => inl (ValueError "Single '{' encountered in format string")
        | String d t2 =>
            if ascii_eqb d lbrace
            then match format_from None kw t2 with
                 | inr r => inr (String lbrace r)
                 | inl e => inl e
                 end
            else format_from (Some EmptyString) kw t1
        end
      else if ascii_eqb c rbrace then
        match t1 with
        | EmptyString => inl (ValueError "Single '}' encountered in format string")
        | String d t2 =>
            if ascii_eqb d rbrace
            then match format_from None kw t2 with
                 | inr r => inr (String rbrace r)
                 | inl e => inl e
                 end
            else inl (ValueError "Single '}' encountered in format string")
        end
      else match format_from None kw t1 with
           | inr r => inr (String c r)
           | inl e => inl e
           end
  | Some name, EmptyString => inl (ValueError "expected '}' before end of string")
  | Some name, String c t1 =>
      if ascii_eqb c rbrace then
        match field_value kw name with
        | inr v => match format_from None kw t1 with
                   | inr r => inr (v +:+ r)
                   | inl e => inl e
                   end
        | inl e => inl e
        end
      else if plain_field_char c
      then format_from (Some (name +:+ String c EmptyString)) kw t1
      else inl (ValueError "unsupported replacement field")
  end.

Definition format (t : string) (kw : list (string * string)) : Exception + string :=
  format_from None kw t.

(** [os.path.basename] and [os.path.dirname] for POSIX paths
    ([os.sep] is [/]): split at the last separator. *)
Fixpoint basename (p : string) : string :=
  match p with
  | EmptyString => EmptyString
  | String c p' =>
      if ascii_eqb c slash then basename p'
      else if existsb (ascii_eqb slash) (list_ascii_of_string p') then basename p'
      else p
  end.

(** [head] of [posixpath.split]: the text before the last separator,
    trailing separators stripped unless the head consists of
    separators only. *)
Fixpoint up_to_last_sep (p : string) : string :=
  match p with
  | EmptyString => EmptyString
  | String c p' =>
      if existsb (ascii_eqb slash) (list_ascii_of_string p)
      then String c (up_to_last_sep p')
      else EmptyString
  end.

Fixpoint rstrip_sep_rev (r : list ascii) : list ascii :=
  match r with
  | c :: r' => if ascii_eqb c slash then rstrip_sep_rev r' else r
  | [] => []
  end.

Definition dirname (p : string) : string :=
  let head := up_to_last_sep p in
  let stripped := string_of_list_ascii (rev (rstrip_sep_rev (rev (list_ascii_of_string head)))) in
  match stripped with
  | EmptyString => head
  | _ => stripped
  end.

Definition sep : string := String slash EmptyString.

(** [repr(s)] for a [str]: double quotes when [s] holds an apostrophe
    and no double quote, apostrophes otherwise; the backslash, the
    quote in use and control characters are escaped.  Characters
    beyond ASCII are taken to be printable and are kept. *)
Definition squote : ascii := Ascii.ascii_of_nat 39.
Definition backslash : ascii := Ascii.ascii_of_nat 92.

Definition hex_digit (n : nat) : ascii :=
  nth n (list_ascii_of_string "0123456789abcdef") "0"%char.

Definition escaped (c : ascii) : string := String backslash (String c EmptyString).

Definition repr_char (quote c : ascii) : string :=
  let n := Ascii.nat_of_ascii c in
  if ascii_eqb c backslash then escaped backslash
  else if ascii_eqb c quote then escaped quote
  else if Nat.eqb n 9 then escaped "t"
  else if Nat.eqb n 10 then escaped "n"
  else if Nat.eqb n 13 then escaped "r"
  else if Nat.ltb n 32 || Nat.eqb n 127
  then String backslash
         (String "x" (String (hex_digit (n / 16)) (String (hex_digit (n mod 16)) EmptyString)))
  else String c EmptyString.

Fixpoint repr_body (quote : ascii) (s : string) : string :=
  match s with
  | EmptyString => EmptyString
  | String c s' => repr_char quote c +:+ repr_body quote s'
  end.

Definition repr (s : string) : string :=
  let chars := list_ascii_of_string s in
  let quote :=
    if existsb (ascii_eqb squote) chars
       && negb (existsb (ascii_eqb (Ascii.ascii_of_nat 34)) chars)
    then Ascii.ascii_of_nat 34 else squote in
  String quote (repr_body quote s +:+ String quote EmptyString).

(** [str(n)] for an [int]. *)
Definition str_of_int (n : Z) : string := pretty n.

End Py.

(** ** What the program delegates to

    [markdown2.markdown(text, extras=...)] and Pygments'
    [HtmlFormatter(style=...).get_style_defs(selector)] are third-party
    routines; the program only calls them.  An [Env] gives what they
    return at one call.  Pygments' style definitions depend on their
    arguments only.  markdown2 draws random numbers when it obfuscates an
    e-mail autolink, so two calls on the same text need not agree: a
    converter that draws is an [Env] per draw, see [with_draw].
    [os_getcwd] is the working directory of the process and
    [default_point_size] the point size of the font a fresh text widget
    reports. *)

Record Env := {
  markdown2_markdown : string -> list string -> string;
  get_style_defs : string -> string -> string;
  os_getcwd : string;
  default_point_size : Z
}.

(** ** Widgets and the outside world *)

Inductive QUrl := fromLocalFile (path : string).

(** A text widget.  [plainText] is what [toPlainText()] returns, and
    [setPlainText] is taken on texts Qt stores as they are: free of
    carriage returns, of U+2028 and U+2029 and of no-break spaces, which
    Qt rewrites. *)
Record QTextEdit := {
  plainText : string;
  styleSheet : string;
  pointSize : Z;
  placeholderText : string
}.

(** The page of the web view: what [setHtml] last gave it, and the
    print-to-PDF jobs it has accepted and not yet finished. *)
Record QWebEngineView := {
  content : option (string * QUrl);
  printing : list string
}.

Inductive Icon := Information | Warning | Critical.

(** Calls that leave the program, newest first in the trace. *)
Inductive Effect :=
| SetHtml (full_html : string) (base_url : QUrl)
| RunJavaScript (js_code : string)
| PrintToPdf (file_path : string)
| ShowMessage (message : string) (timeout : option Z)
| ClearMessage
| MessageBox (icon : Icon) (title text : string)
| InputDialog (title label : string)
| FileDialog (caption : string)
| GetStyleDefs (style selector : string)
| GenerateContent (prompt : string)
| Uncaught (e : Py.Exception).

(** Text files by path.  [faults p = Some e] means that [open] on [p]
    raises [e], whatever the mode; reading a path that holds no file
    raises as well.  A file is kept as the [str] that reading it in text
    mode returns; writing is taken on texts that Python's text layer
    gives back unchanged (encodable, free of carriage returns), as the
    texts of the editor are, on a platform whose line separator is the
    line feed. *)
Record FileSystem := {
  files : gmap string string;
  faults : string -> option Py.Exception
}.

Definition no_such_file (p : string) : Py.Exception :=
  Py.OSError ("[Errno 2] No such file or directory: " +:+ Py.repr p).

Definition read_text (p : string) (d : FileSystem) : Py.Exception + string :=
  match faults d p with
  | Some e => inl e
  | None => match files d !! p with
            | Some t => inr t
            | None => inl (no_such_file p)
            end
  end.

Definition write_text (p : string) (t : string) (d : FileSystem)
  : Py.Exception + FileSystem :=
  match faults d p with
  | Some e => inl e
  | None => inr {| files := <[p := t]> (files d); faults := faults d |}
  end.

(** ** The controller's fields *)

Record MarkdownViewer := {
  current_file_path : option string;
  api_key_set : bool;
  gemini_api_key : option string;
  windowTitle : string;
  editor : QTextEdit;
  preview : QWebEngineView;
  ai_input_text : QTextEdit;
  ai_output_text : QTextEdit;
  dark_mode_action : bool;
  pygments_css : string;
  base_css : string;
  dark_mode_css : string;
  pygments_dark_css : string;
  current_css : string;
  html_template : string;
  update_timer : option nat
}.

(** The application: the controller, the file system, the clock (in
    milliseconds) and the trace.  [update_timer] holds the instant at
    which the single-shot timer is due while it is active. *)
Record World := {
  self : MarkdownViewer;
  fs : FileSystem;
  now : nat;
  trace : list Effect
}.

(** String constants of [load_styles]. *)

Definition base_css_text : string :=
  "
            body { font-family: sans-serif; line-height: 1.6; padding: 20px; }
            h1, h2, h3, h4, h5, h6 { line-height: 1.2; }
            table { border-collapse: collapse; width: 100%; }
            th, td { border: 1px solid #ddd; padding: 8px; }
            th { background-color: #f2f2f2; }
            blockquote { border-left: 4px solid #ccc; padding-left: 10px; color: #666; }
            code { background-color: #f9f9f9; padding: 2px 4px; border-radius: 4px; }
            .codehilite { background: #f8f8f8; border: 1px solid #ccc; padding: 10px; border-radius: 4px; overflow-x: auto;}
            img { max-width: 100%; height: auto; }
        ".

Definition dark_mode_css_text : string :=
  "
            body { background-color: #2b2b2b; color: #dcdcdc; }
            h1, h2, h3, h4, h5, h6 { color: #ffffff; }
            table { border-color: #555; }
            th, td { border-color: #555; }
            th { background-color: #3a3a3a; }
            blockquote { border-left-color: #555; color: #aaa; }
            code { background-color: #3c3c3c; color: #dcdcdc; }
            a { color: #87ceeb; }
        ".

Definition html_template_text : string :=
  "
        <!DOCTYPE html>
        <html>
        <head>
            <meta charset=" +:+ Py.dquote +:+ "utf-g" +:+ Py.dquote +:+ ">
            <style>
                {css}
            </style>
        </head>
        <body>
            {content}
        </body>
        </html>
        ".
(** ** Field updates

    [set_f v r] is [r] with field [f] replaced by [v]: the assignment
    [r.f = v] of the source. *)

Definition set_plainText (v : string) (r : QTextEdit) : QTextEdit :=
  {| plainText := v; styleSheet := styleSheet r; pointSize := pointSize r;
     placeholderText := placeholderText r |}.

Definition set_styleSheet (v : string) (r : QTextEdit) : QTextEdit :=
  {| plainText := plainText r; styleSheet := v; pointSize := pointSize r;
     placeholderText := placeholderText r |}.

Definition set_pointSize (v : Z) (r : QTextEdit) : QTextEdit :=
  {| plainText := plainText r; styleSheet := styleSheet r; pointSize := v;
     placeholderText := placeholderText r |}.

Definition set_placeholderText (v : string) (r : QTextEdit) : QTextEdit :=
  {| plainText := plainText r; styleSheet := styleSheet r; pointSize := pointSize r;
     placeholderText := v |}.

Definition set_content (v : option (string * QUrl)) (r : QWebEngineView) : QWebEngineView :=
  {| content := v; printing := printing r |}.

Definition set_printing (v : list string) (r : QWebEngineView) : QWebEngineView :=
  {| content := content r; printing := v |}.

Definition set_current_file_path (v : option string) (r : MarkdownViewer) : MarkdownViewer :=
  {| current_file_path := v; api_key_set := api_key_set r; gemini_api_key :=
     gemini_api_key r; windowTitle := windowTitle r; editor := editor r; preview :=
     preview r; ai_input_text := ai_input_text r; ai_output_text := ai_output_text r;
     dark_mode_action := dark_mode_action r; pygments_css := pygments_css r; base_css :=
     base_css r; dark_mode_css := dark_mode_css r; pygments_dark_css := pygments_dark_css
     r; current_css := current_css r; html_template := html_template r; update_timer :=
     update_timer r |}.

Definition set_api_key_set (v : bool) (r : MarkdownViewer) : MarkdownViewer :=
  {| current_file_path := current_file_path r; api_key_set := v; gemini_api_key :=
     gemini_api_key r; windowTitle := windowTitle r; editor := editor r; preview :=
     preview r; ai_input_text := ai_input_text r; ai_output_text := ai_output_text r;
     dark_mode_action := dark_mode_action r; pygments_css := pygments_css r; base_css :=
     base_css r; dark_mode_css := dark_mode_css r; pygments_dark_css := pygments_dark_css
     r; current_css := current_css r; html_template := html_template r; update_timer :=
     update_timer r |}.

Definition set_gemini_api_key (v : option string) (r : MarkdownViewer) : MarkdownViewer :=
  {| current_file_path := current_file_path r; api_key_set := api_key_set r;
     gemini_api_key := v; windowTitle := windowTitle r; editor := editor r; preview :=
     preview r; ai_input_text := ai_input_text r; ai_output_text := ai_output_text r;
     dark_mode_action := dark_mode_action r; pygments_css := pygments_css r; base_css :=
     base_css r; dark_mode_css := dark_mode_css r; pygments_dark_css := pygments_dark_css
     r; current_css := current_css r; html_template := html_template r; update_timer :=
     update_timer r |}.

Definition set_windowTitle (v : string) (r : MarkdownViewer) : MarkdownViewer :=
  {| current_file_path := current_file_path r; api_key_set := api_key_set r;
     gemini_api_key := gemini_api_key r; windowTitle := v; editor := editor r; preview :=
     preview r; ai_input_text := ai_input_text r; ai_output_text := ai_output_text r;
     dark_mode_action := dark_mode_action r; pygments_css := pygments_css r; base_css :=
     base_css r; dark_mode_css := dark_mode_css r; pygments_dark_css := pygments_dark_css
     r; current_css := current_css r; html_template := html_template r; update_timer :=
     update_timer r |}.

Definition set_editor (v : QTextEdit) (r : MarkdownViewer) : MarkdownViewer :=
  {| current_file_path := current_file_path r; api_key_set := api_key_set r;
     gemini_api_key := gemini_api_key r; windowTitle := windowTitle r; editor := v;
     preview := preview r; ai_input_text := ai_input_text r; ai_output_text :=
     ai_output_text r; dark_mode_action := dark_mode_action r; pygments_css :=
     pygments_css r; base_css := base_css r; dark_mode_css := dark_mode_css r;
     pygments_dark_css := pygments_dark_css r; current_css := current_css r;
     html_template := html_template r; update_timer := update_timer r |}.

Definition set_preview (v : QWebEngineView) (r : MarkdownViewer) : MarkdownViewer :=
  {| current_file_path := current_file_path r; api_key_set := api_key_set r;
     gemini_api_key := gemini_api_key r; windowTitle := windowTitle r; editor := editor
     r; preview := v; ai_input_text := ai_input_text r; ai_output_text := ai_output_text
     r; dark_mode_action := dark_mode_action r; pygments_css := pygments_css r; base_css
     := base_css r; dark_mode_css := dark_mode_css r; pygments_dark_css :=
     pygments_dark_css r; current_css := current_css r; html_template := html_template r;
     update_timer := update_timer r |}.

Definition set_ai_input_text (v : QTextEdit) (r : MarkdownViewer) : MarkdownViewer :=
  {| current_file_path := current_file_path r; api_key_set := api_key_set r;
     gemini_api_key := gemini_api_key r; windowTitle := windowTitle r; editor := editor
     r; preview := preview r; ai_input_text := v; ai_output_text := ai_output_text r;
     dark_mode_action := dark_mode_action r; pygments_css := pygments_css r; base_css :=
     base_css r; dark_mode_css := dark_mode_css r; pygments_dark_css := pygments_dark_css
     r; current_css := current_css r; html_template := html_template r; update_timer :=
     update_timer r |}.

Definition set_ai_output_text (v : QTextEdit) (r : MarkdownViewer) : MarkdownViewer :=
  {| current_file_path := current_file_path r; api_key_set := api_key_set r;
     gemini_api_key := gemini_api_key r; windowTitle := windowTitle r; editor := editor
     r; preview := preview r; ai_input_text := ai_input_text r; ai_output_text := v;
     dark_mode_action := dark_mode_action r; pygments_css := pygments_css r; base_css :=
     base_css r; dark_mode_css := dark_mode_css r; pygments_dark_css := pygments_dark_css
     r; current_css := current_css r; html_template := html_template r; update_timer :=
     update_timer r |}.

Definition set_dark_mode_action (v : bool) (r : MarkdownViewer) : MarkdownViewer :=
  {| current_file_path := current_file_path r; api_key_set := api_key_set r;
     gemini_api_key := gemini_api_key r; windowTitle := windowTitle r; editor := editor
     r; preview := preview r; ai_input_text := ai_input_text r; ai_output_text :=
     ai_output_text r; dark_mode_action := v; pygments_css := pygments_css r; base_css :=
     base_css r; dark_mode_css := dark_mode_css r; pygments_dark_css := pygments_dark_css
     r; current_css := current_css r; html_template := html_template r; update_timer :=
     update_timer r |}.

Definition set_pygments_css (v : string) (r : MarkdownViewer) : MarkdownViewer :=
  {| current_file_path := current_file_path r; api_key_set := api_key_set r;
     gemini_api_key := gemini_api_key r; windowTitle := windowTitle r; editor := editor
     r; preview := preview r; ai_input_text := ai_input_text r; ai_output_text :=
     ai_output_text r; dark_mode_action := dark_mode_action r; pygments_css := v;
     base_css := base_css r; dark_mode_css := dark_mode_css r; pygments_dark_css :=
     pygments_dark_css r; current_css := current_css r; html_template := html_template r;
     update_timer := update_timer r |}.

Definition set_base_css (v : string) (r : MarkdownViewer) : MarkdownViewer :=
  {| current_file_path := current_file_path r; api_key_set := api_key_set r;
     gemini_api_key := gemini_api_key r; windowTitle := windowTitle r; editor := editor
     r; preview := preview r; ai_input_text := ai_input_text r; ai_output_text :=
     ai_output_text r; dark_mode_action := dark_mode_action r; pygments_css :=
     pygments_css r; base_css := v; dark_mode_css := dark_mode_css r; pygments_dark_css
     := pygments_dark_css r; current_css := current_css r; html_template := html_template
     r; update_timer := update_timer r |}.

Definition set_dark_mode_css (v : string) (r : MarkdownViewer) : MarkdownViewer :=
  {| current_file_path := current_file_path r; api_key_set := api_key_set r;
     gemini_api_key := gemini_api_key r; windowTitle := windowTitle r; editor := editor
     r; preview := preview r; ai_input_text := ai_input_text r; ai_output_text :=
     ai_output_text r; dark_mode_action := dark_mode_action r; pygments_css :=
     pygments_css r; base_css := base_css r; dark_mode_css := v; pygments_dark_css :=
     pygments_dark_css r; current_css := current_css r; html_template := html_template r;
     update_timer := update_timer r |}.

Definition set_pygments_dark_css (v : string) (r : MarkdownViewer) : MarkdownViewer :=
  {| current_file_path := current_file_path r; api_key_set := api_key_set r;
     gemini_api_key := gemini_api_key r; windowTitle := windowTitle r; editor := editor
     r; preview := preview r; ai_input_text := ai_input_text r; ai_output_text :=
     ai_output_text r; dark_mode_action := dark_mode_action r; pygments_css :=
     pygments_css r; base_css := base_css r; dark_mode_css := dark_mode_css r;
     pygments_dark_css := v; current_css := current_css r; html_template := html_template
     r; update_timer := update_timer r |}.

Definition set_current_css (v : string) (r : MarkdownViewer) : MarkdownViewer :=
  {| current_file_path := current_file_path r; api_key_set := api_key_set r;
     gemini_api_key := gemini_api_key r; windowTitle := windowTitle r; editor := editor
     r; preview := preview r; ai_input_text := ai_input_text r; ai_output_text :=
     ai_output_text r; dark_mode_action := dark_mode_action r; pygments_css :=
     pygments_css r; base_css := base_css r; dark_mode_css := dark_mode_css r;
     pygments_dark_css := pygments_dark_css r; current_css := v; html_template :=
     html_template r; update_timer := update_timer r |}.

Definition set_html_template (v : string) (r : MarkdownViewer) : MarkdownViewer :=
  {| current_file_path := current_file_path r; api_key_set := api_key_set r;
     gemini_api_key := gemini_api_key r; windowTitle := windowTitle r; editor := editor
     r; preview := preview r; ai_input_text := ai_input_text r; ai_output_text :=
     ai_output_text r; dark_mode_action := dark_mode_action r; pygments_css :=
     pygments_css r; base_css := base_css r; dark_mode_css := dark_mode_css r;
     pygments_dark_css := pygments_dark_css r; current_css := current_css r;
     html_template := v; update_timer := update_timer r |}.

Definition set_update_timer (v : option nat) (r : MarkdownViewer) : MarkdownViewer :=
  {| current_file_path := current_file_path r; api_key_set := api_key_set r;
     gemini_api_key := gemini_api_key r; windowTitle := windowTitle r; editor := editor
     r; preview := preview r; ai_input_text := ai_input_text r; ai_output_text :=
     ai_output_text r; dark_mode_action := dark_mode_action r; pygments_css :=
     pygments_css r; base_css := base_css r; dark_mode_css := dark_mode_css r;
     pygments_dark_css := pygments_dark_css r; current_css := current_css r;
     html_template := html_template r; update_timer := v |}.

Definition set_self (v : MarkdownViewer) (r : World) : World :=
  {| self := v; fs := fs r; now := now r; trace := trace r |}.

Definition set_fs (v : FileSystem) (r : World) : World :=
  {| self := self r; fs := v; now := now r; trace := trace r |}.

Definition set_now (v : nat) (r : World) : World :=
  {| self := self r; fs := fs r; now := v; trace := trace r |}.

Definition set_trace (v : list Effect) (r : World) : World :=
  {| self := self r; fs := fs r; now := now r; trace := v |}.

(** ** The methods of [MarkdownViewer] *)

Definition on_self (f : MarkdownViewer -> MarkdownViewer) (w : World) : World :=
  set_self (f (self w)) w.

Definition log (e : Effect) (w : World) : World :=
  set_trace (e :: trace w) w.

Definition preview_extras : list string :=
  ["fenced-code-blocks"; "tables"; "highlightjs-classes"; "code-friendly"].

Definition export_extras : list string :=
  ["fenced-code-blocks"; "tables"].

Definition light_editor_style : string :=
  "font-family: 'Courier New'; font-size: 14px; color: #333; background-color: #fdfdfd;".

Definition dark_editor_style : string :=
  "font-family: 'Courier New'; font-size: 14px; color: #dcdcdc; background-color: #2b2b2b;".

Definition light_ai_style : string := "color: #333; background-color: #fdfdfd;".
Definition dark_ai_style : string := "color: #dcdcdc; background-color: #2b2b2b;".

Definition quiet_window : nat := 300.

Section Controller.

Variable env : Env.

(** [load_styles]: the only place that asks Pygments for style
    definitions and the only place that assigns the cached fragments
    and the template. *)
Definition load_styles (w : World) : World :=
  let w := log (GetStyleDefs "default" ".codehilite") w in
  let w := on_self (set_pygments_css (get_style_defs env "default" ".codehilite")) w in
  let w := on_self (set_base_css base_css_text) w in
  let w := on_self (set_dark_mode_css dark_mode_css_text) w in
  let w := log (GetStyleDefs "monokai" ".codehilite") w in
  let w := on_self (set_pygments_dark_css (get_style_defs env "monokai" ".codehilite")) w in
  let w := on_self (fun s => set_current_css (base_css s +:+ pygments_css s) s) w in
  on_self (set_html_template html_template_text) w.

(** [on_text_changed]: [stop()] then [start(300)] on the single-shot
    timer; whatever was pending is dropped. *)
Definition on_text_changed (w : World) : World :=
  let w := on_self (set_update_timer None) w in
  on_self (set_update_timer (Some (now w + quiet_window))) w.

Definition update_preview (html_content : option string) (w : World) : World :=
  let html_content :=
    match html_content with
    | None =>
        let markdown_text := plainText (editor (self w)) in
        markdown2_markdown env markdown_text preview_extras
    | Some h => h
    end in
  match Py.format (html_template (self w))
                  [("css", current_css (self w)); ("content", html_content)] with
  | inl e => log (Uncaught e) w
  | inr full_html =>
      let base_url :=
        match current_file_path (self w) with
        | Some p =>
            if Py.truthy p then fromLocalFile (Py.dirname p +:+ Py.sep)
            else fromLocalFile (os_getcwd env +:+ Py.sep)
        | None => fromLocalFile (os_getcwd env +:+ Py.sep)
        end in
      let w := on_self (fun s => set_preview (set_content (Some (full_html, base_url)) (preview s)) s) w in
      log (SetHtml full_html base_url) w
  end.

(** [self.editor.setPlainText(text)] once [textChanged] is connected to
    [on_text_changed], and a user edit that leaves [text] in the editor:
    both change the document and emit the signal. *)
Definition editor_setPlainText (text : string) (w : World) : World :=
  on_text_changed (on_self (fun s => set_editor (set_plainText text (editor s)) s) w).

Definition open_file (file_path : string) (w : World) : World :=
  let w := log (FileDialog "Open Markdown File") w in
  if Py.truthy file_path then
    match read_text file_path (fs w) with
    | inr text =>
        let w := editor_setPlainText text w in
        let w := on_self (set_current_file_path (Some file_path)) w in
        let w := on_self (set_windowTitle ("Python Markdown Viewer - " +:+ Py.basename file_path)) w in
        log (ShowMessage ("Opened " +:+ file_path) (Some 3000%Z)) w
    | inl e =>
        log (MessageBox Critical "Error" ("Could not open file: " +:+ Py.str_of_exception e)) w
    end
  else w.

(** The first branch of [save_file], taken when [current_file_path] is
    the truthy path [p]. *)
Definition save_file_to (p : string) (w : World) : World :=
  match write_text p (plainText (editor (self w))) (fs w) with
  | inr d => log (ShowMessage ("Saved to " +:+ p) (Some 3000%Z)) (set_fs d w)
  | inl e =>
      log (MessageBox Critical "Error" ("Could not save file: " +:+ Py.str_of_exception e)) w
  end.

(** [save_file_as] ends with [self.save_file()]; the path it has just
    assigned is truthy, so that call takes the first branch. *)
Definition save_file_as (file_path : string) (w : World) : World :=
  let w := log (FileDialog "Save Markdown File") w in
  if Py.truthy file_path then
    let w := on_self (set_current_file_path (Some file_path)) w in
    let w := on_self (set_windowTitle ("Python Markdown Viewer - " +:+ Py.basename file_path)) w in
    save_file_to file_path w
  else w.

(** [file_path] is what the user would answer to the Save As dialog,
    should it be shown. *)
Definition save_file (file_path : string) (w : World) : World :=
  match current_file_path (self w) with
  | Some p => if Py.truthy p then save_file_to p w else save_file_as file_path w
  | None => save_file_as file_path w
  end.

Definition export_to_html (file_path : string) (w : World) : World :=
  let w := log (FileDialog "Export to HTML") w in
  if Py.truthy file_path then
    let markdown_text := plainText (editor (self w)) in
    let html_content := markdown2_markdown env markdown_text export_extras in
    let written :=
      match Py.format (html_template (self w))
                      [("css", current_css (self w)); ("content", html_content)] with
      | inr full_html => write_text file_path full_html (fs w)
      | inl e => inl e
      end in
    match written with
    | inr d => log (ShowMessage ("Exported to " +:+ file_path) (Some 3000%Z)) (set_fs d w)
    | inl e =>
        log (MessageBox Critical "Error" ("Could not export HTML: " +:+ Py.str_of_exception e)) w
    end
  else w.

Definition handle_pdf_creation (file_path : string) (success : bool) (w : World) : World :=
  if success then
    let w := log (ShowMessage ("Exported to " +:+ file_path) (Some 3000%Z)) w in
    log (MessageBox Information "Success" ("PDF successfully exported to " +:+ file_path)) w
  else
    let w := log (ShowMessage "PDF export failed." (Some 3000%Z)) w in
    log (MessageBox Critical "Error" "Could not export PDF.") w.

(** [self.preview.page().printToPdf(file_path)]: the page accepts the
    job and returns; the job finishes later, see [pdf_printing_finished]. *)
Definition printToPdf (file_path : string) (w : World) : World :=
  let w := on_self (fun s => set_preview (set_printing (printing (preview s) ++ [file_path]) (preview s)) s) w in
  log (PrintToPdf file_path) w.

(** [raised] is the exception the call to [printToPdf] itself raises,
    if any. *)
Definition export_to_pdf (file_path : string) (raised : option Py.Exception)
           (w : World) : World :=
  let w := log (FileDialog "Export to PDF") w in
  if negb (Py.truthy file_path) then w
  else
    match raised with
    | None =>
        let w := printToPdf file_path w in
        handle_pdf_creation file_path true w
    | Some _ => handle_pdf_creation file_path false w
    end.

(** The page finishes its oldest print job, with or without success,
    and emits [pdfPrintingFinished]; the program connects nothing to
    that signal.  The bytes of the PDF are not text and are not kept in
    [files]. *)
Definition pdf_printing_finished (success : bool) (w : World) : World :=
  on_self (fun s => set_preview (set_printing (tail (printing (preview s))) (preview s)) s) w.

Definition toggle_dark_mode (w : World) : World :=
  let checked := dark_mode_action (self w) in
  let w :=
    if checked
    then on_self (fun s => set_current_css (base_css s +:+ dark_mode_css s +:+ pygments_dark_css s) s) w
    else on_self (fun s => set_current_css (base_css s +:+ pygments_css s) s) w in
  let editor_style := if checked then dark_editor_style else light_editor_style in
  let ai_style := if checked then dark_ai_style else light_ai_style in
  let w := on_self (fun s => set_editor (set_styleSheet editor_style (editor s)) s) w in
  let w := on_self (fun s => set_ai_input_text (set_styleSheet ai_style (ai_input_text s)) s) w in
  let w := on_self (fun s => set_ai_output_text (set_styleSheet ai_style (ai_output_text s)) s) w in
  update_preview None w.

Definition adjust_font_size (delta : Z) (w : World) : World :=
  let js_code :=
    "document.body.style.fontSize = (parseInt(window.getComputedStyle(document.body).fontSize) + "
    +:+ Py.str_of_int delta +:+ ") + 'px';" in
  let w := log (RunJavaScript js_code) w in
  let new_size := (pointSize (editor (self w)) + delta / 2)%Z in
  if (new_size >? 4)%Z then
    let w := on_self (fun s => set_editor (set_pointSize new_size (editor s)) s) w in
    let w := on_self (fun s => set_ai_input_text (set_pointSize new_size (ai_input_text s)) s) w in
    on_self (fun s => set_ai_output_text (set_pointSize new_size (ai_output_text s)) s) w
  else w.

End Controller.

(** ** The AI assistant bridge *)

Definition api_key_error (e : Py.Exception) : string :=
  "The API key seems to be invalid.
Please check it and try again.
Error: " +:+ Py.str_of_exception e.

(** [answer] is what [QInputDialog.getText] returns, should the dialog
    be shown; [validate key] is the exception raised by
    [genai.configure(api_key=key)] followed by [genai.get_model(...)],
    if any. *)
Definition get_api_key (answer : string * bool)
           (validate : string -> option Py.Exception) (w : World) : bool * World :=
  if api_key_set (self w) && Py.truthy_opt (gemini_api_key (self w)) then (true, w)
  else
    let w := log (InputDialog "Gemini API Key" "Please enter your Google Gemini API key:") w in
    let '(text, ok) := answer in
    if ok && Py.truthy text then
      let w := on_self (set_gemini_api_key (Some text)) w in
      let w := on_self (set_api_key_set true) w in
      match validate text with
      | None => (true, w)
      | Some e =>
          let w := log (MessageBox Warning "API Key Error" (api_key_error e)) w in
          let w := on_self (set_api_key_set false) w in
          let w := on_self (set_gemini_api_key None) w in
          (false, w)
      end
    else (false, w).

Definition prepare_ai_tab (selected_text : string) (w : World) : World :=
  if negb (Py.truthy selected_text) then
    log (MessageBox Information "AI Tool" "Please select some text in the 'Editor' tab first.") w
  else
    let w := on_self (fun s => set_ai_input_text (set_plainText selected_text (ai_input_text s)) s) w in
    on_self (fun s => set_ai_output_text (set_plainText "" (ai_output_text s)) s) w.

Definition prompt_of (content_to_analyze : string) : string :=
  "
            Please act as a helpful assistant. Analyze the following text or code snippet and provide a concise explanation or summary.
            If it's code, explain what it does. If it's text, summarize its main points.

            Content to analyze:
            ---
            " +:+ content_to_analyze +:+ "
            ---
            ".

(** [generate prompt] is the text of the service's response, or the
    exception raised while asking for it.  [QApplication.processEvents()]
    delivers the events that are due at that instant; methods take no
    time here and a timer that falls due is delivered by [elapse] when
    the clock reaches it, so nothing is due and the call is left out. *)
Definition run_ai_generation (answer : string * bool)
           (validate : string -> option Py.Exception)
           (generate : string -> Py.Exception + string) (w : World) : World :=
  let content_to_analyze := plainText (ai_input_text (self w)) in
  if negb (Py.truthy content_to_analyze) then
    log (MessageBox Information "AI Tool"
           "There is no content to analyze. Please send some text from the editor first.") w
  else
    let '(have_key, w) := get_api_key answer validate w in
    if negb have_key then w
    else
      let w := log (ShowMessage "Sending request to Gemini AI..." None) w in
      let w := on_self (fun s => set_ai_output_text
                                   (set_placeholderText "Generating response..."
                                      (ai_output_text s)) s) w in
      let prompt := prompt_of content_to_analyze in
      let w := log (GenerateContent prompt) w in
      match generate prompt with
      | inr text =>
          let w := log ClearMessage w in
          on_self (fun s => set_ai_output_text (set_plainText text (ai_output_text s)) s) w
      | inl e =>
          let w := log ClearMessage w in
          let w := on_self (fun s => set_ai_output_text
                                       (set_placeholderText "An error occurred."
                                          (ai_output_text s)) s) w in
          log (MessageBox Critical "AI Error"
                 ("An error occurred while contacting the AI service: " +:+ Py.str_of_exception e)) w
      end.

(** ** Start-up and the event loop *)

Section Application.

Variable env : Env.

Definition fresh_text_edit : QTextEdit :=
  {| plainText := ""; styleSheet := ""; pointSize := default_point_size env;
     placeholderText := "" |}.

(** The object before [__init__] has assigned anything. *)
Definition unassigned : MarkdownViewer :=
  {| current_file_path := None; api_key_set := false; gemini_api_key := None;
     windowTitle := "";
     editor := fresh_text_edit;
     preview := {| content := None; printing := [] |};
     ai_input_text := fresh_text_edit; ai_output_text := fresh_text_edit;
     dark_mode_action := false;
     pygments_css := ""; base_css := ""; dark_mode_css := ""; pygments_dark_css := "";
     current_css := ""; html_template := "";
     update_timer := None |}.

Definition setup_ui (w : World) : World :=
  let w := on_self (fun s => set_editor
                               (set_placeholderText "Type your Markdown here..." (editor s)) s) w in
  on_self (fun s => set_editor (set_styleSheet light_editor_style (editor s)) s) w.

(** [__init__], run at instant [t0] over the file system [d]. *)
Definition __init__ (d : FileSystem) (t0 : nat) : World :=
  let w := {| self := unassigned; fs := d; now := t0; trace := [] |} in
  let w := on_self (set_windowTitle "Python Markdown Viewer") w in
  let w := on_self (set_current_file_path None) w in
  let w := on_self (set_api_key_set false) w in
  let w := on_self (set_gemini_api_key None) w in
  let w := setup_ui w in
  let w := load_styles env w in
  let w := on_self (set_update_timer None) w in
  update_preview env None w.

(** Time passes: the clock advances by [ms]; if the timer falls due on
    the way, its [timeout] runs [update_preview] at that instant, once
    (the timer is single-shot). *)
Definition elapse (ms : nat) (w : World) : World :=
  let t := now w + ms in
  match update_timer (self w) with
  | Some due =>
      if Nat.leb due t then
        let w := set_now due w in
        let w := on_self (set_update_timer None) w in
        let w := update_preview env None w in
        set_now t w
      else set_now t w
  | None => set_now t w
  end.

(** What can happen to the running application. *)
Inductive Event :=
| TextEdited (text : string)
| Elapse (ms : nat)
| OpenTriggered (file_path : string)
| SaveTriggered (file_path : string)
| SaveAsTriggered (file_path : string)
| ExportHtmlTriggered (file_path : string)
| ExportPdfTriggered (file_path : string) (raised : option Py.Exception)
| PdfPrintingFinished (success : bool)
| DarkModeTriggered
| FontSizeTriggered (delta : Z)
| SendSelectionTriggered (selected_text : string)
| AiButtonClicked (answer : string * bool)
                  (validate : string -> option Py.Exception)
                  (generate : string -> Py.Exception + string)
| FilesChanged (d : FileSystem).

(** Triggering the checkable action flips its checked state, then
    calls the slot. *)
Definition step (ev : Event) (w : World) : World :=
  match ev with
  | TextEdited text => editor_setPlainText text w
  | Elapse ms => elapse ms w
  | OpenTriggered p => open_file p w
  | SaveTriggered p => save_file p w
  | SaveAsTriggered p => save_file_as p w
  | ExportHtmlTriggered p => export_to_html env p w
  | ExportPdfTriggered p raised => export_to_pdf p raised w
  | PdfPrintingFinished ok => pdf_printing_finished ok w
  | DarkModeTriggered =>
      toggle_dark_mode env (on_self (fun s => set_dark_mode_action (negb (dark_mode_action s)) s) w)
  | FontSizeTriggered delta => adjust_font_size delta w
  | SendSelectionTriggered t => prepare_ai_tab t w
  | AiButtonClicked answer validate generate => run_ai_generation answer validate generate w
  | FilesChanged d => set_fs d w
  end.

Definition run (evs : list Event) (w : World) : World :=
  fold_left (fun w ev => step ev w) evs w.

Inductive reachable : World -> Prop :=
| reachable_init d t0 : reachable (__init__ d t0)
| reachable_step ev w : reachable w -> reachable (step ev w).

End Application.

(** * Vocabulary of the properties *)

(** ** The document template

    The three literal pieces of [html_template_text] around its two
    replacement fields. *)

Definition template_head : string :=
  "
        <!DOCTYPE html>
        <html>
        <head>
            <meta charset=" +:+ Py.dquote +:+ "utf-g" +:+ Py.dquote +:+ ">
            <style>
                ".

Definition template_mid : string :=
  "
            </style>
        </head>
        <body>
            ".

Definition template_tail : string :=
  "
        </body>
        </html>
        ".

Definition wrap (css content : string) : string :=
  template_head +:+ css +:+ template_mid +:+ content +:+ template_tail.

(** ** Reading the trace *)

Fixpoint count (p : Effect -> bool) (tr : list Effect) : nat :=
  match tr with
  | [] => 0
  | e :: tr' => (if p e then 1 else 0) + count p tr'
  end.

Definition is_style_request (e : Effect) : bool :=
  match e with GetStyleDefs _ _ => true | _ => false end.

Definition is_render (e : Effect) : bool :=
  match e with SetHtml _ _ => true | _ => false end.

(** Requests for style definitions made so far, and renders made so far. *)
Definition style_requests (w : World) : nat := count is_style_request (trace w).
Definition render_calls (w : World) : nat := count is_render (trace w).

(** ** Cached styles and themes *)

(** The fragments cached by [load_styles] and the template. *)
Record Styles := {
  st_pygments_css : string;
  st_base_css : string;
  st_dark_mode_css : string;
  st_pygments_dark_css : string;
  st_html_template : string
}.

Definition cached (s : MarkdownViewer) : Styles :=
  {| st_pygments_css := pygments_css s; st_base_css := base_css s;
     st_dark_mode_css := dark_mode_css s; st_pygments_dark_css := pygments_dark_css s;
     st_html_template := html_template s |}.

(** [w'] has the cached fragments of [w] and no further request for
    style definitions was made in between. *)
Definition styles_kept (w w' : World) : Prop :=
  cached (self w') = cached (self w) /\ style_requests w' = style_requests w.

(** Moreover the theme is the same: checked state and selected bundle. *)
Definition theme_kept (w w' : World) : Prop :=
  styles_kept w w'
  /\ dark_mode_action (self w') = dark_mode_action (self w)
  /\ current_css (self w') = current_css (self w).

Definition startup_styles (env : Env) : Styles :=
  {| st_pygments_css := get_style_defs env "default" ".codehilite";
     st_base_css := base_css_text;
     st_dark_mode_css := dark_mode_css_text;
     st_pygments_dark_css := get_style_defs env "monokai" ".codehilite";
     st_html_template := html_template_text |}.

(** The CSS bundle of a theme, from the fragments made at start-up. *)
Definition css_bundle (env : Env) (dark : bool) : string :=
  if dark
  then base_css_text +:+ dark_mode_css_text +:+ get_style_defs env "monokai" ".codehilite"
  else base_css_text +:+ get_style_defs env "default" ".codehilite".

(** The full HTML of a document under a theme. *)
Definition render_html (env : Env) (text : string) (dark : bool) : string :=
  wrap (css_bundle env dark) (markdown2_markdown env text preview_extras).

(** The full HTML the preview currently shows. *)
Definition rendered (w : World) : option string :=
  fst <$> content (preview (self w)).

Definition document (w : World) : string := plainText (editor (self w)).
Definition dark (w : World) : bool := dark_mode_action (self w).

Record styles_loaded (env : Env) (w : World) : Prop := {
  loaded_cached : cached (self w) = startup_styles env;
  loaded_requests : style_requests w = 2;
  loaded_current : current_css (self w) = css_bundle env (dark w)
}.

(** The editor text, the theme flag, the timer and the page content are
    those of [w]. *)
Definition display_kept (w w' : World) : Prop :=
  document w' = document w /\ dark w' = dark w
  /\ update_timer (self w') = update_timer (self w)
  /\ content (preview (self w')) = content (preview (self w))
  /\ render_calls w' = render_calls w.

(** Whenever no render is pending, the page shows the HTML of the
    current document under the current theme. *)
Definition settled_fresh (env : Env) (w : World) : Prop :=
  update_timer (self w) = None ->
  rendered w = Some (render_html env (document w) (dark w)).

(** ** Bursts of edits *)

(** Edits that follow a first one: each comes [gap] milliseconds after
    the edit before it and leaves [text] in the editor. *)
Fixpoint edits_after (rest : list (nat * string)) : list Event :=
  match rest with
  | [] => []
  | (gap, text) :: rest' => Elapse gap :: TextEdited text :: edits_after rest'
  end.

(** A first edit, the edits that follow it, then [quiet] milliseconds
    without any. *)
Definition typing (text0 : string) (rest : list (nat * string)) (quiet : nat) : list Event :=
  TextEdited text0 :: edits_after rest ++ [Elapse quiet].

Fixpoint last_text (text0 : string) (rest : list (nat * string)) : string :=
  match rest with
  | [] => text0
  | (_, text) :: rest' => last_text text rest'
  end.

(** ** The API key *)

Definition is_prompt (e : Effect) : bool :=
  match e with InputDialog _ _ => true | _ => false end.

(** Key prompts shown so far. *)
Definition prompts (w : World) : nat := count is_prompt (trace w).

(** The bridge holds no usable credential. *)
Definition no_key (w : World) : Prop :=
  api_key_set (self w) = false /\ gemini_api_key (self w) = None.

(** The application after a prompted key was rejected with [e], and
    after it was accepted. *)
Definition key_rejected (text : string) (e : Py.Exception) (w : World) : World :=
  let w := log (InputDialog "Gemini API Key" "Please enter your Google Gemini API key:") w in
  let w := on_self (set_gemini_api_key (Some text)) w in
  let w := on_self (set_api_key_set true) w in
  let w := log (MessageBox Warning "API Key Error" (api_key_error e)) w in
  let w := on_self (set_api_key_set false) w in
  on_self (set_gemini_api_key None) w.

Definition key_accepted (text : string) (w : World) : World :=
  let w := log (InputDialog "Gemini API Key" "Please enter your Google Gemini API key:") w in
  let w := on_self (set_gemini_api_key (Some text)) w in
  on_self (set_api_key_set true) w.

(** ** Files and fonts *)

(** The path [save_file] writes to: the current path when there is one,
    otherwise the answer to the Save As dialog, unless it was cancelled. *)
Definition save_destination (answer : string) (w : World) : option string :=
  let asked := if Py.truthy answer then Some answer else None in
  match current_file_path (self w) with
  | Some p => if Py.truthy p then Some p else asked
  | None => asked
  end.

Definition adjust_all (deltas : list Z) (w : World) : World :=
  fold_left (fun w delta => adjust_font_size delta w) deltas w.

Definition editor_size (w : World) : Z := pointSize (editor (self w)).
Definition ai_input_size (w : World) : Z := pointSize (ai_input_text (self w)).
Definition ai_output_size (w : World) : Z := pointSize (ai_output_text (self w)).

(** The bundle [toggle_dark_mode] selects, from the cached fragments. *)
Definition selected_bundle (s : MarkdownViewer) : string :=
  if dark_mode_action s
  then base_css s +:+ dark_mode_css s +:+ pygments_dark_css s
  else base_css s +:+ pygments_css s.

(** ** A concrete environment

    A small converter standing in for markdown2 on one-paragraph
    documents: underscores delimit emphasis unless the [code-friendly]
    extra is on, as markdown2 documents for that extra. *)

Definition has_extra (x : string) (extras : list string) : bool :=
  existsb (String.eqb x) extras.

Fixpoint sample_inline (in_em : bool) (t : string) : string :=
  match t with
  | EmptyString => if in_em then "</em>" else ""
  | String c t' =>
      if Py.ascii_eqb c "_"
      then (if in_em then "</em>" else "<em>") +:+ sample_inline (negb in_em) t'
      else String c (sample_inline in_em t')
  end.

Definition sample_markdown (text : string) (extras : list string) : string :=
  "<p>" +:+ (if has_extra "code-friendly" extras then text else sample_inline false text)
  +:+ "</p>
".

Definition sample_env : Env :=
  {| markdown2_markdown := sample_markdown;
     get_style_defs := fun style selector => selector +:+ " .k { color: " +:+ style +:+ " }";
     os_getcwd := "/home/user";
     default_point_size := 10 |}.

Definition empty_fs : FileSystem :=
  {| files := ∅; faults := fun _ => None |}.

(** The application just started, at instant 0, on an empty file system. *)
Definition started : World := __init__ sample_env empty_fs 0.


Definition accepting : string -> option Py.Exception := fun _ => None.
Definition rejecting : string -> option Py.Exception :=
  fun _ => Some (Py.RuntimeError "API key not valid. Please pass a valid API key.").

(** The document [# Title] typed into the started application. *)
Definition typed_title : World := step sample_env (TextEdited "# Title") started.

Definition read_only_fs : FileSystem :=
  {| files := ∅;
     faults := fun p => if String.eqb p "/etc/notes.md"
                        then Some (Py.OSError "[Errno 13] Permission denied: '/etc/notes.md'")
                        else None |}.

(** ** The menu's font actions and the search bar *)

(** The slots [create_menus] gives to Increase and Decrease. *)
Definition increase_font (w : World) : World := adjust_font_size 2 w.
Definition decrease_font (w : World) : World := adjust_font_size (-2) w.

(** Calls made on behalf of the search bar. *)
Inductive SearchEffect :=
| SetFocus
| Find (query : string).

(** The search bar widget, the text of its input line, and the calls
    made so far, newest first. *)
Record SearchBar := {
  search_bar_visible : bool;
  search_input_text : string;
  search_calls : list SearchEffect
}.

(** The bar as [setup_ui] and [create_search_bar] leave it: hidden.
    [search_bar_visible] is what [isVisible()] returns while the main
    window is shown. *)
Definition search_bar_created : SearchBar :=
  {| search_bar_visible := false; search_input_text := ""; search_calls := [] |}.

Definition toggle_search_bar (b : SearchBar) : SearchBar :=
  let b := {| search_bar_visible := negb (search_bar_visible b);
              search_input_text := search_input_text b;
              search_calls := search_calls b |} in
  if search_bar_visible b
  then {| search_bar_visible := search_bar_visible b;
          search_input_text := search_input_text b;
          search_calls := SetFocus :: search_calls b |}
  else b.

Definition search_text (b : SearchBar) : SearchBar :=
  let query := search_input_text b in
  if Py.truthy query
  then {| search_bar_visible := search_bar_visible b;
          search_input_text := search_input_text b;
          search_calls := Find query :: search_calls b |}
  else b.

(** ** Further vocabulary *)

Definition is_request (e : Effect) : bool :=
  match e with GenerateContent _ => true | _ => false end.

Definition is_file_dialog (e : Effect) : bool :=
  match e with FileDialog _ => true | _ => false end.

(** Generation requests sent, and file dialogs shown, so far. *)
Definition requests (w : World) : nat := count is_request (trace w).
Definition file_dialogs (w : World) : nat := count is_file_dialog (trace w).

(** A usable key is cached: the guard of [get_api_key] passes. *)
Definition has_key (w : World) : bool :=
  api_key_set (self w) && Py.truthy_opt (gemini_api_key (self w)).

(** The two credential fields agree: a non-empty key with the flag set,
    or no key with the flag clear. *)
Definition key_consistent (w : World) : Prop :=
  (api_key_set (self w) = true
   /\ exists key, gemini_api_key (self w) = Some key /\ Py.truthy key = true)
  \/ (api_key_set (self w) = false /\ gemini_api_key (self w) = None).

(** A pending render is due within one quiet window. *)
Definition timer_bounded (w : World) : Prop :=
  forall due, update_timer (self w) = Some due -> due <= now w + quiet_window.

Definition editor_style_of (dark : bool) : string :=
  if dark then dark_editor_style else light_editor_style.

Definition ai_style_of (dark : bool) : string :=
  if dark then dark_ai_style else light_ai_style.

(** The style sheets follow the theme flag; the AI panes have none
    until the theme is first toggled. *)
Definition sheets_follow_theme (w : World) : Prop :=
  styleSheet (editor (self w)) = editor_style_of (dark w)
  /\ styleSheet (ai_input_text (self w)) = styleSheet (ai_output_text (self w))
  /\ (styleSheet (ai_input_text (self w)) = ai_style_of (dark w)
      \/ styleSheet (ai_input_text (self w)) = "" /\ dark w = false).

(** The page shows some document under the current theme. *)
Definition page_follows_theme (env : Env) (w : World) : Prop :=
  exists text base_url,
    content (preview (self w)) = Some (render_html env text (dark w), base_url).

(** Frames: which parts of [w] are still those of [w']. *)
Definition keys_kept (w w' : World) : Prop :=
  api_key_set (self w') = api_key_set (self w)
  /\ gemini_api_key (self w') = gemini_api_key (self w).

Definition sheets_kept (w w' : World) : Prop :=
  dark w' = dark w
  /\ styleSheet (editor (self w')) = styleSheet (editor (self w))
  /\ styleSheet (ai_input_text (self w')) = styleSheet (ai_input_text (self w))
  /\ styleSheet (ai_output_text (self w')) = styleSheet (ai_output_text (self w)).

Definition page_kept (w w' : World) : Prop :=
  dark w' = dark w /\ content (preview (self w')) = content (preview (self w)).

Definition clock_kept (w w' : World) : Prop :=
  now w' = now w /\ update_timer (self w') = update_timer (self w).

Definition files_kept (w w' : World) : Prop := fs w' = fs w.

Definition path_kept (w w' : World) : Prop :=
  current_file_path (self w') = current_file_path (self w)
  /\ windowTitle (self w') = windowTitle (self w)
  /\ document w' = document w.

(** The file system [d'] differs from [d] at most at path [p]. *)
Definition only_path_changed (p : string) (d d' : FileSystem) : Prop :=
  faults d' = faults d /\ forall q, q <> p -> files d' !! q = files d !! q.

(** ** Further sample applications *)

Definition sample_reply : string -> Py.Exception + string :=
  fun _ => inr "A short summary.".

Definition failing_service : string -> Py.Exception + string :=
  fun _ => inl (Py.RuntimeError "503 Service Unavailable").

(** A selection was sent to the AI tab of the started application. *)
Definition selection_sent : World :=
  step sample_env (SendSelectionTriggered "def f(): pass") started.

(** ... and the AI button clicked with a key the service rejects. *)
Definition key_refused : World :=
  step sample_env (AiButtonClicked ("wrong-key", true) rejecting sample_reply) selection_sent.

(** ... or with a key the service accepts. *)
Definition key_granted : World :=
  step sample_env (AiButtonClicked ("good-key", true) accepting sample_reply) selection_sent.

Definition started_dark : World := step sample_env DarkModeTriggered started.

(** The base URL [update_preview] gives the page: the directory of the
    current file, or the working directory when there is none. *)
Definition base_url_of (env : Env) (w : World) : QUrl :=
  match current_file_path (self w) with
  | Some p =>
      if Py.truthy p then fromLocalFile (Py.dirname p +:+ Py.sep)
      else fromLocalFile (os_getcwd env +:+ Py.sep)
  | None => fromLocalFile (os_getcwd env +:+ Py.sep)
  end.

(** A file system holding one note. *)
Definition notes_fs : FileSystem :=
  {| files := {[ "/home/user/docs/notes.md" := "# Notes" ]}; faults := fun _ => None |}.

Definition started_with_notes : World := __init__ sample_env notes_fs 0.

(** A file system with one note, where [/etc/notes.md] cannot be opened. *)
Definition guarded_fs : FileSystem :=
  {| files := {[ "/home/user/docs/notes.md" := "# Notes" ]};
     faults := faults read_only_fs |}.

(** The note opened from [guarded_fs] and edited. *)
Definition notes_edited : World :=
  run sample_env [OpenTriggered "/home/user/docs/notes.md"; TextEdited "# Notes, edited"]
      (__init__ sample_env guarded_fs 0).

(** Renders an event can cause: an edit or an opened file schedules
    one, a theme toggle makes one. *)
Definition render_budget (ev : Event) : nat :=
  match ev with
  | TextEdited _ | OpenTriggered _ | DarkModeTriggered => 1
  | _ => 0
  end.

Definition pending (w : World) : nat :=
  match update_timer (self w) with Some _ => 1 | None => 0 end.

Definition has_separator (s : string) : bool :=
  existsb (Py.ascii_eqb Py.slash) (list_ascii_of_string s).

Fixpoint total_budget (evs : list Event) : nat :=
  match evs with
  | [] => 0
  | ev :: evs' => render_budget ev + total_budget evs'
  end.

(** The title the window shows for a current path. *)
Definition title_of (path : option string) : string :=
  match path with
  | Some p => "Python Markdown Viewer - " +:+ Py.basename p
  | None => "Python Markdown Viewer"
  end.

(** The title is that of the current path, which is never empty. *)
Definition title_follows_path (w : World) : Prop :=
  windowTitle (self w) = title_of (current_file_path (self w))
  /\ forall p, current_file_path (self w) = Some p -> Py.truthy p = true.

(** ** A converter that draws

    The fragment markdown2 returns for a text depends on the random
    numbers it draws at that call as well: it writes each character of
    an e-mail autolink as itself, as a decimal or as a hexadecimal entity
    at random.  [markdown draw] is the converter at the draws [draw], and
    [with_draw markdown env draw] the environment of a call made at those
    draws. *)

Definition with_draw (markdown : nat -> string -> list string -> string)
           (env : Env) (draw : nat) : Env :=
  {| markdown2_markdown := markdown draw;
     get_style_defs := get_style_defs env;
     os_getcwd := os_getcwd env;
     default_point_size := default_point_size env |}.

(** The applications reachable when start-up and every event may meet
    draws of their own. *)
Inductive reachable_drawn (markdown : nat -> string -> list string -> string)
          (env : Env) : World -> Prop :=
| drawn_init draw d t0 :
    reachable_drawn markdown env (__init__ (with_draw markdown env draw) d t0)
| drawn_step draw ev w :
    reachable_drawn markdown env w ->
    reachable_drawn markdown env (step (with_draw markdown env draw) ev w).

(** A stand-in for the obfuscation: the [@] of the address becomes a
    decimal entity at an even draw and a hexadecimal one at an odd draw,
    two of the encodings markdown2 chooses between; the other characters
    are kept, which markdown2 may do as well. *)
Definition at_sign_entity (draw : nat) : string :=
  if Nat.even draw then "&#64;" else "&#x40;".

Fixpoint obfuscate (draw : nat) (t : string) : string :=
  match t with
  | EmptyString => EmptyString
  | String c t' =>
      (if Py.ascii_eqb c "@" then at_sign_entity draw else String c EmptyString)
      +:+ obfuscate draw t'
  end.

(** The text before a closing [>] that ends [t]. *)
Fixpoint before_closing (t : string) : option string :=
  match t with
  | EmptyString => None
  | String c t' =>
      match t' with
      | EmptyString => if Py.ascii_eqb c ">" then Some EmptyString else None
      | String _ _ => option_map (String c) (before_closing t')
      end
  end.

(** The address of a document that is one e-mail autolink. *)
Definition autolink_address (text : string) : option string :=
  match text with
  | EmptyString => None
  | String c rest =>
      if Py.ascii_eqb c "<" then
        match before_closing rest with
        | Some address =>
            if existsb (Py.ascii_eqb "@") (list_ascii_of_string address)
            then Some address else None
        | None => None
        end
      else None
  end.

Definition sample_markdown_drawn (draw : nat) (text : string) (extras : list string)
  : string :=
  match autolink_address text with
  | Some address =>
      "<p><a href=" +:+ Py.dquote +:+ "mailto:" +:+ obfuscate draw address +:+ Py.dquote
      +:+ ">" +:+ obfuscate draw address +:+ "</a></p>
"
  | None => sample_markdown text extras
  end.

Definition drawn_env (draw : nat) : Env := with_draw sample_markdown_drawn sample_env draw.

(** An application started at draw 0 in which an e-mail autolink was
    typed, and the same after the font was enlarged and the document
    saved under a name: same text and theme, different path, title,
    fonts, files and trace. *)
Definition address_typed : World :=
  step (drawn_env 0) (TextEdited "<user@example.com>") (__init__ (drawn_env 0) empty_fs 0).

Definition address_saved : World :=
  step (drawn_env 3) (SaveAsTriggered "/home/user/mail.md")
       (step (drawn_env 5) (FontSizeTriggered 2) address_typed).

(** * Lemmas and theorems *)

(** ** The built-ins on examples *)

Example format_simple :
  Py.format "a{x}b{y}c" [("x", "1"); ("y", "22")] = inr "a1b22c".
Proof. reflexivity. Qed.

Example format_missing :
  Py.format "a{x}b" [("y", "22")] = inl (Py.KeyError "x").
Proof. reflexivity. Qed.

Example basename_ex : Py.basename "/home/u/notes.md" = "notes.md".
Proof. reflexivity. Qed.

Example dirname_ex : Py.dirname "/home/u/notes.md" = "/home/u".
Proof. reflexivity. Qed.

Example dirname_root : Py.dirname "/notes.md" = "/".
Proof. reflexivity. Qed.

Example str_of_int_ex : Py.str_of_int (-2) = "-2".
Proof. reflexivity. Qed.

Example repr_plain : Py.repr "/home/u/notes.md" = "'/home/u/notes.md'".
Proof. reflexivity. Qed.

Example repr_apostrophe : Py.repr "it's.md" = Py.dquote +:+ "it's.md" +:+ Py.dquote.
Proof. reflexivity. Qed.

(** ** The document template *)

Lemma template_pieces :
  html_template_text
  = template_head +:+ "{css}" +:+ template_mid +:+ "{content}" +:+ template_tail.
Proof. reflexivity. Qed.

Lemma format_html_template (css content : string) :
  Py.format html_template_text [("css", css); ("content", content)]
  = inr (wrap css content).
Proof. reflexivity. Qed.

(** ** What the methods leave alone *)

Lemma theme_kept_refl w : theme_kept w w.
Proof. repeat split. Qed.

Lemma theme_kept_trans w1 w2 w3 :
  theme_kept w1 w2 -> theme_kept w2 w3 -> theme_kept w1 w3.
Proof.
  intros [[Ha Hb] [Hc Hd]] [[Ha' Hb'] [Hc' Hd']].
  repeat split; congruence.
Qed.

Lemma theme_kept_styles w w' : theme_kept w w' -> styles_kept w w'.
Proof. by intros [H _]. Qed.

Ltac frame_by_cases :=
  repeat first [ progress simpl | case_match ];
  try (repeat split; reflexivity).

Section Frames.

Variable env : Env.

Lemma set_update_timer_theme v w : theme_kept w (on_self (set_update_timer v) w).
Proof. repeat split. Qed.

Lemma on_text_changed_theme w : theme_kept w (on_text_changed w).
Proof. repeat split. Qed.

Lemma update_preview_theme h w : theme_kept w (update_preview env h w).
Proof. unfold update_preview. frame_by_cases. Qed.

Lemma editor_setPlainText_theme t w : theme_kept w (editor_setPlainText t w).
Proof. repeat split. Qed.

Lemma elapse_theme ms w : theme_kept w (elapse env ms w).
Proof. unfold elapse, update_preview. frame_by_cases. Qed.

Lemma open_file_theme p w : theme_kept w (open_file p w).
Proof. unfold open_file. frame_by_cases. Qed.

Lemma save_file_as_theme p w : theme_kept w (save_file_as p w).
Proof. unfold save_file_as, save_file_to. frame_by_cases. Qed.

Lemma save_file_theme p w : theme_kept w (save_file p w).
Proof.
  unfold save_file. repeat case_match; try apply save_file_as_theme.
  unfold save_file_to. frame_by_cases.
Qed.

Lemma export_to_html_theme p w : theme_kept w (export_to_html env p w).
Proof. unfold export_to_html. frame_by_cases. Qed.

Lemma export_to_pdf_theme p r w : theme_kept w (export_to_pdf p r w).
Proof. unfold export_to_pdf. frame_by_cases. Qed.

Lemma pdf_printing_finished_theme b w : theme_kept w (pdf_printing_finished b w).
Proof. repeat split. Qed.

Lemma adjust_font_size_theme delta w : theme_kept w (adjust_font_size delta w).
Proof. unfold adjust_font_size. frame_by_cases. Qed.

Lemma get_api_key_theme a v w : theme_kept w (snd (get_api_key a v w)).
Proof. unfold get_api_key. destruct a. frame_by_cases. Qed.

Lemma prepare_ai_tab_theme t w : theme_kept w (prepare_ai_tab t w).
Proof. unfold prepare_ai_tab. frame_by_cases. Qed.

Lemma run_ai_generation_theme a v g w : theme_kept w (run_ai_generation a v g w).
Proof.
  unfold run_ai_generation.
  destruct (negb _); [repeat split |].
  pose proof (get_api_key_theme a v w) as Hk.
  destruct (get_api_key a v w) as [have w']; simpl in Hk.
  destruct have; simpl; [| exact Hk].
  eapply theme_kept_trans; [exact Hk |].
  destruct (g _); repeat split.
Qed.

(** The theme toggle keeps the cached fragments and asks for nothing;
    it changes the selected bundle only. *)
Lemma toggle_dark_mode_styles w : styles_kept w (toggle_dark_mode env w).
Proof. unfold toggle_dark_mode, update_preview. frame_by_cases. Qed.

End Frames.

(** ** The invariant of a running application *)

Section Invariant.

Variable env : Env.

Lemma styles_loaded_kept w w' :
  theme_kept w w' -> styles_loaded env w -> styles_loaded env w'.
Proof.
  intros [[Hc Hr] [Hd Hcss]] [L1 L2 L3].
  split; unfold dark in *; congruence.
Qed.

Lemma load_styles_loaded w :
  style_requests w = 0 -> dark w = false -> styles_loaded env (load_styles env w).
Proof.
  intros Hr Hd. unfold style_requests, dark in *.
  split; unfold style_requests, dark; simpl; [reflexivity | | ].
  - by rewrite Hr.
  - by rewrite Hd.
Qed.

Lemma init_loaded d t0 : styles_loaded env (__init__ env d t0).
Proof.
  unfold __init__.
  eapply styles_loaded_kept; [apply update_preview_theme |].
  match goal with
  | |- styles_loaded _ (on_self _ ?x) => apply (styles_loaded_kept x)
  end; [apply set_update_timer_theme | apply load_styles_loaded; reflexivity].
Qed.

Lemma toggle_dark_mode_loaded w :
  cached (self w) = startup_styles env -> style_requests w = 2 ->
  styles_loaded env (toggle_dark_mode env w).
Proof.
  intros Hc Hr. unfold toggle_dark_mode.
  eapply styles_loaded_kept; [apply update_preview_theme |].
  injection Hc as H1 H2 H3 H4 H5.
  destruct (dark_mode_action (self w)) eqn:Hd;
    (split; unfold style_requests, dark, css_bundle, cached, startup_styles in *; simpl;
     [ by rewrite H1, H2, H3, H4, H5 | exact Hr | by rewrite Hd, ?H1, ?H2, ?H3, ?H4 ]).
Qed.

Lemma step_theme ev w :
  ev <> DarkModeTriggered -> theme_kept w (step env ev w).
Proof.
  intros Hev. destruct ev; simpl;
    auto using editor_setPlainText_theme, elapse_theme, open_file_theme,
      save_file_theme, save_file_as_theme, export_to_html_theme,
      export_to_pdf_theme, pdf_printing_finished_theme, adjust_font_size_theme,
      prepare_ai_tab_theme, run_ai_generation_theme.
  - congruence.
  - repeat split.
Qed.

Lemma step_loaded ev w : styles_loaded env w -> styles_loaded env (step env ev w).
Proof.
  intros L.
  destruct ev; try (eapply styles_loaded_kept; [by apply step_theme | exact L]).
  simpl. destruct L as [L1 L2 L3]. by apply toggle_dark_mode_loaded.
Qed.

Lemma reachable_loaded w : reachable env w -> styles_loaded env w.
Proof.
  induction 1 as [d t0 | ev w _ IH]; [apply init_loaded | by apply step_loaded].
Qed.

(** One call of [update_preview] on a loaded application: the page gets
    the template wrapped around the bundle of the theme and the
    fragment of the document, and the call shows in the trace. *)
Lemma update_preview_loaded w :
  styles_loaded env w ->
  exists base_url,
    let w' := update_preview env None w in
    content (preview (self w')) = Some (render_html env (document w) (dark w), base_url)
    /\ trace w' = SetHtml (render_html env (document w) (dark w)) base_url :: trace w
    /\ document w' = document w /\ dark w' = dark w
    /\ update_timer (self w') = update_timer (self w)
    /\ now w' = now w /\ fs w' = fs w.
Proof.
  intros [L1 L2 L3]. injection L1 as H1 H2 H3 H4 H5.
  unfold update_preview. rewrite H5, L3, format_html_template.
  eexists. simpl. repeat split.
Qed.

End Invariant.

(** ** Methods that do not touch the display *)

Lemma display_kept_refl w : display_kept w w.
Proof. repeat split. Qed.

Lemma display_kept_trans w1 w2 w3 :
  display_kept w1 w2 -> display_kept w2 w3 -> display_kept w1 w3.
Proof.
  intros (A1 & A2 & A3 & A4 & A5) (B1 & B2 & B3 & B4 & B5).
  repeat split; congruence.
Qed.

Section DisplayFrames.

Variable env : Env.

Lemma save_file_as_display p w : display_kept w (save_file_as p w).
Proof. unfold save_file_as, save_file_to. frame_by_cases. Qed.

Lemma save_file_display p w : display_kept w (save_file p w).
Proof.
  unfold save_file. repeat case_match; try apply save_file_as_display.
  unfold save_file_to. frame_by_cases.
Qed.

Lemma export_to_html_display p w : display_kept w (export_to_html env p w).
Proof. unfold export_to_html. frame_by_cases. Qed.

Lemma export_to_pdf_display p r w : display_kept w (export_to_pdf p r w).
Proof. unfold export_to_pdf. frame_by_cases. Qed.

Lemma pdf_printing_finished_display b w : display_kept w (pdf_printing_finished b w).
Proof. repeat split. Qed.

Lemma adjust_font_size_display delta w : display_kept w (adjust_font_size delta w).
Proof. unfold adjust_font_size. frame_by_cases. Qed.

Lemma get_api_key_display a v w : display_kept w (snd (get_api_key a v w)).
Proof. unfold get_api_key. destruct a. frame_by_cases. Qed.

Lemma prepare_ai_tab_display t w : display_kept w (prepare_ai_tab t w).
Proof. unfold prepare_ai_tab. frame_by_cases. Qed.

Lemma run_ai_generation_display a v g w : display_kept w (run_ai_generation a v g w).
Proof.
  unfold run_ai_generation.
  destruct (negb _); [repeat split |].
  pose proof (get_api_key_display a v w) as Hk.
  destruct (get_api_key a v w) as [have w']; simpl in Hk.
  destruct have; simpl; [| exact Hk].
  eapply display_kept_trans; [exact Hk |].
  destruct (g _); repeat split.
Qed.

End DisplayFrames.

(** ** The sample converter *)

Example sample_markdown_plain :
  sample_markdown "_a_" export_extras = "<p><em>a</em></p>
".
Proof. reflexivity. Qed.

Example sample_markdown_friendly :
  sample_markdown "_a_" preview_extras = "<p>_a_</p>
".
Proof. reflexivity. Qed.

(** ** The live preview *)

Section Preview.

Variable env : Env.

Lemma update_preview_rendered w :
  styles_loaded env w ->
  rendered (update_preview env None w) = Some (render_html env (document w) (dark w)).
Proof.
  intros L. destruct (update_preview_loaded env w L) as (b & Hc & _).
  unfold rendered. simpl in Hc. by rewrite Hc.
Qed.

Lemma update_preview_settled w :
  styles_loaded env w -> settled_fresh env (update_preview env None w).
Proof.
  intros L _. destruct (update_preview_loaded env w L) as (b & Hc & _ & Hd & Hk & _).
  simpl in Hc, Hd, Hk. unfold rendered. by rewrite Hc, Hd, Hk.
Qed.

Lemma display_kept_settled w w' :
  display_kept w w' -> settled_fresh env w -> settled_fresh env w'.
Proof.
  intros (H1 & H2 & H3 & H4 & _) Hs Ht. unfold rendered.
  rewrite H1, H2, H4. apply Hs. congruence.
Qed.

Lemma toggle_dark_mode_rendered w :
  cached (self w) = startup_styles env -> style_requests w = 2 ->
  rendered (toggle_dark_mode env w) = Some (render_html env (document w) (dark w))
  /\ document (toggle_dark_mode env w) = document w
  /\ dark (toggle_dark_mode env w) = dark w.
Proof.
  intros Hc Hr. unfold toggle_dark_mode.
  injection Hc as H1 H2 H3 H4 H5.
  match goal with
  | |- context [update_preview env None ?x] =>
      assert (styles_loaded env x /\ document x = document w /\ dark x = dark w)
        as (L & Hdoc & Hdark)
  end.
  { destruct (dark_mode_action (self w)) eqn:Hd;
      (split; [split |];
       unfold style_requests, dark, document, css_bundle, cached, startup_styles in *; simpl;
       [ by rewrite H1, H2, H3, H4, H5 | exact Hr | by rewrite Hd, ?H1, ?H2, ?H3, ?H4
       | by split ]). }
  destruct (update_preview_loaded env _ L) as (b & Hcont & _ & Hd' & Hk' & _).
  simpl in Hcont, Hd', Hk'. unfold rendered.
  rewrite Hcont, Hd', Hk', Hdoc, Hdark. by repeat split.
Qed.

Lemma elapse_settled ms w :
  styles_loaded env w -> settled_fresh env w -> settled_fresh env (elapse env ms w).
Proof.
  intros L Hs. unfold elapse.
  destruct (update_timer (self w)) as [due |] eqn:Ht.
  - destruct (Nat.leb due (now w + ms)); [| intros Hn; simpl in Hn; congruence].
    intros _.
    match goal with
    | |- context [update_preview env None ?x] =>
        assert (styles_loaded env x) as L'
          by (apply (styles_loaded_kept env w); [repeat split | exact L])
    end.
    destruct (update_preview_loaded env _ L') as (b & Hcont & _ & Hd' & Hk' & _).
    simpl in Hcont, Hd', Hk'. unfold rendered, document, dark in *. simpl.
    by rewrite Hcont, Hd', Hk'.
  - intros _. unfold rendered, document, dark. simpl. by apply Hs.
Qed.

Lemma open_file_settled p w : settled_fresh env w -> settled_fresh env (open_file p w).
Proof.
  intros Hs. unfold open_file.
  destruct (Py.truthy p); [| by apply (display_kept_settled w); [repeat split |]].
  simpl. destruct (read_text p (fs w)).
  - by apply (display_kept_settled w); [repeat split |].
  - intros Hn. simpl in Hn. congruence.
Qed.

Lemma step_settled ev w :
  styles_loaded env w -> settled_fresh env w -> settled_fresh env (step env ev w).
Proof.
  intros L Hs. destruct ev; simpl.
  - intros Hn. simpl in Hn. congruence.
  - by apply elapse_settled.
  - by apply open_file_settled.
  - eapply display_kept_settled; [apply save_file_display | exact Hs].
  - eapply display_kept_settled; [apply save_file_as_display | exact Hs].
  - eapply display_kept_settled; [apply export_to_html_display | exact Hs].
  - eapply display_kept_settled; [apply export_to_pdf_display | exact Hs].
  - eapply display_kept_settled; [apply pdf_printing_finished_display | exact Hs].
  - intros _. destruct L as [L1 L2 L3].
    match goal with
    | |- context [toggle_dark_mode env ?x] =>
        destruct (toggle_dark_mode_rendered x) as (Hr & Hdoc & Hdark); [exact L1 | exact L2 |]
    end.
    by rewrite Hr, Hdoc, Hdark.
  - eapply display_kept_settled; [apply adjust_font_size_display | exact Hs].
  - eapply display_kept_settled; [apply prepare_ai_tab_display | exact Hs].
  - eapply display_kept_settled; [apply run_ai_generation_display | exact Hs].
  - by apply (display_kept_settled w); [repeat split |].
Qed.

Lemma reachable_settled w : reachable env w -> settled_fresh env w.
Proof.
  induction 1 as [d t0 | ev w Hw IH].
  - unfold __init__. apply update_preview_settled.
    match goal with
    | |- styles_loaded _ (on_self _ ?x) => apply (styles_loaded_kept env x)
    end; [apply set_update_timer_theme | apply load_styles_loaded; reflexivity].
  - apply step_settled; [by apply reachable_loaded | exact IH].
Qed.

End Preview.

(** * The claims *)

Lemma styles_loaded_with_draw markdown env draw w :
  styles_loaded (with_draw markdown env draw) w <-> styles_loaded env w.
Proof. split; intros [L1 L2 L3]; split; assumption. Qed.

Lemma reachable_drawn_loaded markdown env w :
  reachable_drawn markdown env w -> styles_loaded env w.
Proof.
  induction 1 as [draw d t0 | draw ev w _ IH].
  - apply (styles_loaded_with_draw markdown env draw), init_loaded.
  - apply (styles_loaded_with_draw markdown env draw), step_loaded.
    by apply styles_loaded_with_draw.
Qed.

Lemma update_preview_drawn markdown env draw w :
  styles_loaded env w ->
  rendered (update_preview (with_draw markdown env draw) None w)
  = Some (wrap (css_bundle env (dark w)) (markdown draw (document w) preview_extras)).
Proof.
  intros L. apply (styles_loaded_with_draw markdown env draw) in L.
  exact (update_preview_rendered (with_draw markdown env draw) w L).
Qed.

Example sample_fragment_even :
  sample_markdown_drawn 0 "<user@example.com>" preview_extras
  = "<p><a href=" +:+ Py.dquote +:+ "mailto:user&#64;example.com" +:+ Py.dquote
    +:+ ">user&#64;example.com</a></p>
".
Proof. reflexivity. Qed.

Example sample_fragment_odd :
  sample_markdown_drawn 1 "<user@example.com>" preview_extras
  = "<p><a href=" +:+ Py.dquote +:+ "mailto:user&#x40;example.com" +:+ Py.dquote
    +:+ ">user&#x40;example.com</a></p>
".
Proof. reflexivity. Qed.

(** C1, as stated, fails: [update_preview] converts the text anew at
    every call, and the converter draws when the text holds an e-mail
    autolink.  Two runs on one and the same application, hence with the
    same text and the same theme, give different HTML when the draws
    differ. *)
Lemma preview_differs_between_runs :
  reachable_drawn sample_markdown_drawn sample_env address_typed
  /\ document address_typed = "<user@example.com>"
  /\ rendered (update_preview (drawn_env 0) None address_typed)
     = Some (wrap (css_bundle sample_env false)
               (sample_markdown_drawn 0 "<user@example.com>" preview_extras))
  /\ rendered (update_preview (drawn_env 1) None address_typed)
     = Some (wrap (css_bundle sample_env false)
               (sample_markdown_drawn 1 "<user@example.com>" preview_extras))
  /\ rendered (update_preview (drawn_env 0) None address_typed)
     <> rendered (update_preview (drawn_env 1) None address_typed).
Proof.
  split_and!; try (vm_compute; reflexivity).
  - apply (drawn_step sample_markdown_drawn sample_env 0), drawn_init.
  - vm_compute. discriminate.
Qed.

(** C1, amended.  The full HTML given to the preview by
    [update_preview] is the template around the bundle of the dark-mode
    flag and the fragment the converter returns at that call for the
    editor text.  Two runs on reachable applications with the same text
    and the same flag give the same string whenever the converter
    returns the same fragment at both calls, whatever the rest of their
    state. *)
Theorem preview_function_of_text_theme_and_fragment
        (markdown : nat -> string -> list string -> string) (env : Env)
        (w1 w2 : World) (draw1 draw2 : nat) :
  reachable_drawn markdown env w1 -> reachable_drawn markdown env w2 ->
  document w1 = document w2 -> dark w1 = dark w2 ->
  let html1 := rendered (update_preview (with_draw markdown env draw1) None w1) in
  let html2 := rendered (update_preview (with_draw markdown env draw2) None w2) in
  html1 = Some (wrap (css_bundle env (dark w1))
                     (markdown draw1 (document w1) preview_extras))
  /\ html2 = Some (wrap (css_bundle env (dark w1))
                        (markdown draw2 (document w1) preview_extras))
  /\ (markdown draw1 (document w1) preview_extras
      = markdown draw2 (document w1) preview_extras -> html1 = html2).
Proof.
  intros R1 R2 Hdoc Hdark html1 html2.
  pose proof (update_preview_drawn markdown env draw1 w1
                (reachable_drawn_loaded markdown env w1 R1)) as H1.
  pose proof (update_preview_drawn markdown env draw2 w2
                (reachable_drawn_loaded markdown env w2 R2)) as H2.
  rewrite <- Hdoc, <- Hdark in H2. fold html1 in H1. fold html2 in H2.
  split_and!; [exact H1 | exact H2 |].
  intros Heq. by rewrite H1, H2, Heq.
Qed.

Lemma preview_function_witness :
  let html1 := rendered (update_preview (drawn_env 2) None address_typed) in
  let html2 := rendered (update_preview (drawn_env 4) None address_saved) in
  html1 = Some (wrap (css_bundle sample_env (dark address_typed))
                     (sample_markdown_drawn 2 (document address_typed) preview_extras))
  /\ html2 = Some (wrap (css_bundle sample_env (dark address_typed))
                        (sample_markdown_drawn 4 (document address_typed) preview_extras))
  /\ (sample_markdown_drawn 2 (document address_typed) preview_extras
      = sample_markdown_drawn 4 (document address_typed) preview_extras -> html1 = html2).
Proof.
  apply (preview_function_of_text_theme_and_fragment sample_markdown_drawn sample_env
           address_typed address_saved 2 4).
  - apply (drawn_step sample_markdown_drawn sample_env 0), drawn_init.
  - apply (drawn_step sample_markdown_drawn sample_env 3).
    apply (drawn_step sample_markdown_drawn sample_env 5).
    apply (drawn_step sample_markdown_drawn sample_env 0), drawn_init.
  - vm_compute. reflexivity.
  - vm_compute. reflexivity.
Defined.

(** C2, as stated, fails: the render that follows the toggle converts
    the text anew, so the fragment under the dark theme need not be the
    fragment under the light theme.  With the e-mail autolink and
    different draws the two fragments differ. *)
Lemma theme_toggle_fragment_differs :
  let under_light := sample_markdown_drawn 0 "<user@example.com>" preview_extras in
  let under_dark := sample_markdown_drawn 1 "<user@example.com>" preview_extras in
  reachable_drawn sample_markdown_drawn sample_env address_typed
  /\ rendered (update_preview (drawn_env 0) None address_typed)
     = Some (template_head +:+ css_bundle sample_env false +:+ template_mid
             +:+ under_light +:+ template_tail)
  /\ rendered (step (drawn_env 1) DarkModeTriggered address_typed)
     = Some (template_head +:+ css_bundle sample_env true +:+ template_mid
             +:+ under_dark +:+ template_tail)
  /\ under_light <> under_dark.
Proof.
  split_and!; try (vm_compute; reflexivity).
  - apply (drawn_step sample_markdown_drawn sample_env 0), drawn_init.
  - vm_compute. discriminate.
Qed.

(** C2, amended.  Rendering a document and rendering it again after the
    theme is toggled give the same template, around the bundle of the
    respective theme and the fragment the converter returns at the
    respective call for the same, unchanged document.  When the
    converter returns the same fragment at both calls, the two strings
    differ in the bundle placed in the style slot and nowhere else. *)
Theorem theme_toggle_changes_css_and_reconverts
        (markdown : nat -> string -> list string -> string) (env : Env)
        (w : World) (draw1 draw2 : nat) :
  reachable_drawn markdown env w ->
  let fragment1 := markdown draw1 (document w) preview_extras in
  let fragment2 := markdown draw2 (document w) preview_extras in
  let toggled := step (with_draw markdown env draw2) DarkModeTriggered w in
  rendered (update_preview (with_draw markdown env draw1) None w)
  = Some (template_head +:+ css_bundle env (dark w) +:+ template_mid
          +:+ fragment1 +:+ template_tail)
  /\ rendered toggled
     = Some (template_head +:+ css_bundle env (negb (dark w)) +:+ template_mid
             +:+ fragment2 +:+ template_tail)
  /\ dark toggled = negb (dark w)
  /\ document toggled = document w
  /\ (fragment1 = fragment2 ->
      rendered toggled
      = Some (template_head +:+ css_bundle env (negb (dark w)) +:+ template_mid
              +:+ fragment1 +:+ template_tail)).
Proof.
  intros R fragment1 fragment2 toggled.
  pose proof (reachable_drawn_loaded markdown env w R) as L.
  assert (rendered toggled
          = Some (template_head +:+ css_bundle env (negb (dark w)) +:+ template_mid
                  +:+ fragment2 +:+ template_tail)
          /\ dark toggled = negb (dark w) /\ document toggled = document w)
    as (Ht & Hd & Hdoc).
  { apply (styles_loaded_with_draw markdown env draw2) in L.
    destruct L as [L1 L2 L3]. subst toggled. simpl.
    match goal with
    | |- context [toggle_dark_mode _ ?x] =>
        destruct (toggle_dark_mode_rendered (with_draw markdown env draw2) x)
          as (Hr & Hdoc & Hdark); [exact L1 | exact L2 |]
    end.
    rewrite Hr, Hdoc, Hdark. by split_and!. }
  split_and!; [exact (update_preview_drawn markdown env draw1 w L) | exact Ht
               | exact Hd | exact Hdoc |].
  intros Heq. rewrite Ht. by rewrite <- Heq.
Qed.

Lemma theme_toggle_reconverts_witness :
  let fragment1 := sample_markdown_drawn 2 (document address_typed) preview_extras in
  let fragment2 := sample_markdown_drawn 4 (document address_typed) preview_extras in
  let toggled := step (drawn_env 4) DarkModeTriggered address_typed in
  rendered (update_preview (drawn_env 2) None address_typed)
  = Some (template_head +:+ css_bundle sample_env (dark address_typed) +:+ template_mid
          +:+ fragment1 +:+ template_tail)
  /\ rendered toggled
     = Some (template_head +:+ css_bundle sample_env (negb (dark address_typed))
             +:+ template_mid +:+ fragment2 +:+ template_tail)
  /\ dark toggled = negb (dark address_typed)
  /\ document toggled = document address_typed
  /\ (fragment1 = fragment2 ->
      rendered toggled
      = Some (template_head +:+ css_bundle sample_env (negb (dark address_typed))
              +:+ template_mid +:+ fragment1 +:+ template_tail)).
Proof.
  apply (theme_toggle_changes_css_and_reconverts sample_markdown_drawn sample_env
           address_typed 2 4).
  apply (drawn_step sample_markdown_drawn sample_env 0), drawn_init.
Defined.




(** ** Debounce *)

Section Debounce.

Variable env : Env.

Lemma run_cons ev evs w : run env (ev :: evs) w = run env evs (step env ev w).
Proof. reflexivity. Qed.

Lemma run_snoc evs ev w : run env (evs ++ [ev]) w = step env ev (run env evs w).
Proof. unfold run. by rewrite fold_left_app. Qed.

Lemma step_elapse ms w : step env (Elapse ms) w = elapse env ms w.
Proof. reflexivity. Qed.

Lemma elapse_not_due ms due w :
  update_timer (self w) = Some due -> now w + ms < due ->
  elapse env ms w = set_now (now w + ms) w.
Proof.
  intros Ht Hlt. unfold elapse. rewrite Ht.
  destruct (Nat.leb_spec due (now w + ms)); [lia | reflexivity].
Qed.

Lemma elapse_due ms due w :
  styles_loaded env w -> update_timer (self w) = Some due -> due <= now w + ms ->
  let w' := elapse env ms w in
  (exists base_url,
      trace w' = SetHtml (render_html env (document w) (dark w)) base_url :: trace w)
  /\ rendered w' = Some (render_html env (document w) (dark w))
  /\ update_timer (self w') = None
  /\ document w' = document w /\ dark w' = dark w
  /\ now w' = now w + ms
  /\ styles_loaded env w'.
Proof.
  intros L Ht Hle. unfold elapse. rewrite Ht.
  destruct (Nat.leb_spec due (now w + ms)); [| lia].
  match goal with
  | |- context [update_preview env None ?x] =>
      assert (styles_loaded env x) as L'
        by (apply (styles_loaded_kept env w); [repeat split | exact L]);
      pose proof (update_preview_theme env None x) as Hth;
      destruct (update_preview_loaded env x L') as (b & Hc & Htr & Hdoc & Hdk & Htm & _)
  end.
  simpl in Hc, Htr, Hdoc, Hdk, Htm.
  split; [exists b; exact Htr |].
  split; [unfold rendered; simpl; by rewrite Hc |].
  split; [exact Htm |]. split; [exact Hdoc |]. split; [exact Hdk |].
  split; [reflexivity |].
  apply (styles_loaded_kept env w); [| exact L].
  eapply theme_kept_trans; [| eapply theme_kept_trans; [exact Hth |]]; repeat split.
Qed.

(** After an edit the timer is due one quiet window later, and nothing
    was rendered. *)
Lemma edit_pending text w :
  let w' := step env (TextEdited text) w in
  trace w' = trace w /\ update_timer (self w') = Some (now w' + quiet_window)
  /\ document w' = text /\ dark w' = dark w /\ now w' = now w.
Proof. repeat split. Qed.

Lemma edit_loaded text w :
  styles_loaded env w -> styles_loaded env (step env (TextEdited text) w).
Proof. apply step_loaded. Qed.

(** A burst: every gap is shorter than the quiet window.  Nothing is
    rendered during the burst and the timer is left pending. *)
Lemma burst_pending rest : forall text0 w,
  styles_loaded env w ->
  Forall (fun e => fst e < quiet_window) rest ->
  let u := run env (TextEdited text0 :: edits_after rest) w in
  trace u = trace w /\ update_timer (self u) = Some (now u + quiet_window)
  /\ document u = last_text text0 rest /\ dark u = dark w
  /\ styles_loaded env u.
Proof.
  induction rest as [| [gap text] rest IH]; intros text0 w L Hgaps.
  - simpl. split_and!; try reflexivity. by apply edit_loaded.
  - inversion Hgaps as [| ? ? Hgap Hrest]; subst. simpl in Hgap.
    rewrite run_cons. simpl edits_after. rewrite run_cons.
    set (w1 := step env (TextEdited text0) w).
    assert (step env (Elapse gap) w1 = set_now (now w1 + gap) w1) as He.
    { apply (elapse_not_due gap (now w1 + quiet_window)); [reflexivity | lia]. }
    rewrite He.
    assert (styles_loaded env (set_now (now w1 + gap) w1)) as L1.
    { apply (styles_loaded_kept env w1); [repeat split | by apply edit_loaded]. }
    destruct (IH text (set_now (now w1 + gap) w1) L1 Hrest) as (A & B & C & D & E).
    split; [exact A |]. split; [exact B |]. split; [exact C |]. split; [exact D | exact E].
Qed.

(** Spaced edits: every gap is longer than the quiet window.  Each edit
    but the last has been rendered by the time the next one comes. *)
Lemma spaced_pending rest : forall text0 w,
  styles_loaded env w ->
  Forall (fun e => quiet_window < fst e) rest ->
  let u := run env (TextEdited text0 :: edits_after rest) w in
  render_calls u = render_calls w + length rest
  /\ update_timer (self u) = Some (now u + quiet_window)
  /\ document u = last_text text0 rest /\ dark u = dark w
  /\ styles_loaded env u.
Proof.
  induction rest as [| [gap text] rest IH]; intros text0 w L Hgaps.
  - simpl. split_and!; try reflexivity.
    + unfold render_calls. simpl. lia.
    + by apply edit_loaded.
  - inversion Hgaps as [| ? ? Hgap Hrest]; subst. simpl in Hgap.
    rewrite run_cons. simpl edits_after. rewrite run_cons.
    set (w1 := step env (TextEdited text0) w).
    assert (styles_loaded env w1) as L1 by (by apply edit_loaded).
    destruct (elapse_due gap (now w1 + quiet_window) w1 L1 eq_refl)
      as ((b & Htr) & _ & _ & _ & Hdk & _ & L2); [lia |].
    destruct (IH text (step env (Elapse gap) w1) L2 Hrest) as (A & B & C & D & E).
    split; [| split; [exact B |]; split; [exact C |]; split; [| exact E]].
    + rewrite A. unfold render_calls. simpl step. rewrite Htr. simpl. lia.
    + rewrite D. exact Hdk.
Qed.

End Debounce.

(** C4.  A first edit followed by further edits, then a quiet window.
    If every gap between consecutive edits is shorter than the quiet
    window (300 ms), the whole run adds one entry to the trace: a single
    render, of the text left by the last edit.  If every gap is longer
    than the quiet window, the run makes one render per edit. *)
Theorem debounce_render_calls (env : Env) (w : World) (text0 : string)
        (rest : list (nat * string)) (quiet : nat) :
  reachable env w -> quiet_window <= quiet ->
  let w' := run env (typing text0 rest quiet) w in
  (Forall (fun e => fst e < quiet_window) rest ->
   render_calls w' = render_calls w + 1
   /\ exists base_url,
       trace w' = SetHtml (render_html env (last_text text0 rest) (dark w)) base_url
                    :: trace w)
  /\ (Forall (fun e => quiet_window < fst e) rest ->
      render_calls w' = render_calls w + (1 + length rest)).
Proof.
  intros R Hq w'. pose proof (reachable_loaded env w R) as L.
  subst w'. unfold typing. rewrite app_comm_cons, run_snoc.
  split; intros Hgaps.
  - destruct (burst_pending env rest text0 w L Hgaps) as (Htr & Ht & Hdoc & Hdk & Lu).
    destruct (elapse_due env quiet _ _ Lu Ht) as ((b & Htr') & _); [lia |].
    rewrite step_elapse. split.
    + unfold render_calls. rewrite Htr', Htr. cbn [count is_render]. lia.
    + exists b. by rewrite Htr', Htr, Hdoc, Hdk.
  - destruct (spaced_pending env rest text0 w L Hgaps) as (Hn & Ht & Hdoc & Hdk & Lu).
    destruct (elapse_due env quiet _ _ Lu Ht) as ((b & Htr') & _); [lia |].
    rewrite step_elapse. unfold render_calls in *.
    rewrite Htr'. cbn [count is_render]. rewrite Hn. lia.
Qed.

Lemma debounce_render_calls_witness :
  (let w' := run sample_env (typing "a" [(100, "ab"); (250, "abc")] 300) started in
   render_calls w' = render_calls started + 1
   /\ exists base_url,
       trace w' = SetHtml (render_html sample_env "abc" (dark started)) base_url
                    :: trace started)
  /\ (let w' := run sample_env (typing "a" [(301, "ab"); (900, "abc")] 300) started in
      render_calls w' = render_calls started + 3).
Proof.
  split.
  - apply (debounce_render_calls sample_env started "a" [(100, "ab"); (250, "abc")] 300).
    + apply reachable_init.
    + unfold quiet_window. lia.
    + repeat constructor; simpl; unfold quiet_window; lia.
  - apply (debounce_render_calls sample_env started "a" [(301, "ab"); (900, "abc")] 300).
    + apply reachable_init.
    + unfold quiet_window. lia.
    + repeat constructor; simpl; unfold quiet_window; lia.
Defined.

(** ** The API key *)

Lemma get_api_key_prompted w text validate :
  api_key_set (self w) && Py.truthy_opt (gemini_api_key (self w)) = false ->
  Py.truthy text = true ->
  get_api_key (text, true) validate w
  = match validate text with
    | Some e => (false, key_rejected text e w)
    | None => (true, key_accepted text w)
    end.
Proof.
  intros Hno Htext. unfold get_api_key. rewrite Hno, Htext. simpl.
  by destruct (validate text).
Qed.

Lemma get_api_key_no_key answer validate w :
  no_key w -> prompts (snd (get_api_key answer validate w)) = prompts w + 1.
Proof.
  intros [Hs Hk]. destruct answer as [text ok]. unfold get_api_key. rewrite Hs. simpl.
  destruct (ok && Py.truthy text); [destruct (validate text) |];
    unfold prompts; simpl; lia.
Qed.

Lemma get_api_key_cached answer validate w key :
  api_key_set (self w) = true -> gemini_api_key (self w) = Some key ->
  Py.truthy key = true ->
  get_api_key answer validate w = (true, w).
Proof.
  intros Hs Hk Ht. unfold get_api_key. by rewrite Hs, Hk; simpl; rewrite Ht.
Qed.

(** C5.  The user is prompted (no usable key is cached) and enters a
    non-empty key.  If validation raises, [get_api_key] returns [False]
    with [api_key_set] false and [gemini_api_key] [None], and every later
    call shows the prompt again.  If validation passes, it returns [True]
    with the key cached, and every later call returns [True] leaving the
    application as it is: no prompt, no request. *)
Theorem get_api_key_validation (w : World) (text : string)
        (validate : string -> option Py.Exception) :
  api_key_set (self w) && Py.truthy_opt (gemini_api_key (self w)) = false ->
  Py.truthy text = true ->
  let result := get_api_key (text, true) validate w in
  (forall e, validate text = Some e ->
     fst result = false /\ no_key (snd result)
     /\ prompts (snd result) = prompts w + 1
     /\ forall answer' validate',
         prompts (snd (get_api_key answer' validate' (snd result)))
         = prompts (snd result) + 1)
  /\ (validate text = None ->
      fst result = true
      /\ api_key_set (self (snd result)) = true
      /\ gemini_api_key (self (snd result)) = Some text
      /\ prompts (snd result) = prompts w + 1
      /\ forall answer' validate',
          get_api_key answer' validate' (snd result) = (true, snd result)).
Proof.
  intros Hno Htext result. subst result.
  rewrite (get_api_key_prompted w text validate Hno Htext).
  split.
  - intros e He. rewrite He. simpl fst. simpl snd.
    assert (no_key (key_rejected text e w)) as Hnk by (by split).
    split_and!; [reflexivity | exact Hnk | unfold prompts; simpl; lia |].
    intros answer' validate'. by apply get_api_key_no_key.
  - intros Hv. rewrite Hv. simpl fst. simpl snd.
    split_and!; [reflexivity | reflexivity | reflexivity | unfold prompts; simpl; lia |].
    intros answer' validate'.
    by apply (get_api_key_cached answer' validate' (key_accepted text w) text).
Qed.

Lemma get_api_key_validation_witness :
  (let result := get_api_key ("wrong-key", true) rejecting started in
   fst result = false /\ no_key (snd result)
   /\ prompts (snd result) = prompts started + 1
   /\ forall answer' validate',
       prompts (snd (get_api_key answer' validate' (snd result)))
       = prompts (snd result) + 1)
  /\ (let result := get_api_key ("good-key", true) accepting started in
      fst result = true
      /\ api_key_set (self (snd result)) = true
      /\ gemini_api_key (self (snd result)) = Some "good-key"
      /\ prompts (snd result) = prompts started + 1
      /\ forall answer' validate',
          get_api_key answer' validate' (snd result) = (true, snd result)).
Proof.
  split.
  - apply (proj1 (get_api_key_validation started "wrong-key" rejecting eq_refl eq_refl)
             (Py.RuntimeError "API key not valid. Please pass a valid API key.")).
    reflexivity.
  - apply (proj2 (get_api_key_validation started "good-key" accepting eq_refl eq_refl)).
    reflexivity.
Defined.

(** ** Files *)

Lemma save_destination_truthy answer w p :
  save_destination answer w = Some p -> Py.truthy p = true.
Proof.
  unfold save_destination.
  destruct (current_file_path (self w)) as [q |];
    [destruct (Py.truthy q) eqn:Hq |]; destruct (Py.truthy answer) eqn:Ha;
    intros H; simplify_eq; done.
Qed.

Lemma save_file_to_written p w :
  faults (fs w) p = None ->
  files (fs (save_file_to p w)) !! p = Some (document w)
  /\ faults (fs (save_file_to p w)) = faults (fs w)
  /\ current_file_path (self (save_file_to p w)) = current_file_path (self w).
Proof.
  intros Hf. unfold save_file_to, write_text. rewrite Hf. simpl.
  by rewrite lookup_insert_eq.
Qed.

Lemma save_file_written answer w p :
  save_destination answer w = Some p -> faults (fs w) p = None ->
  files (fs (save_file answer w)) !! p = Some (document w)
  /\ faults (fs (save_file answer w)) p = None
  /\ current_file_path (self (save_file answer w)) = Some p.
Proof.
  intros Hd Hf. unfold save_destination in Hd. unfold save_file.
  assert (forall w0, fs w0 = fs w -> document w0 = document w ->
            files (fs (save_file_to p w0)) !! p = Some (document w)
            /\ faults (fs (save_file_to p w0)) p = None
            /\ current_file_path (self (save_file_to p w0)) = current_file_path (self w0))
    as Hto.
  { intros w0 Hfs Hdoc. rewrite <- Hfs in Hf.
    destruct (save_file_to_written p w0 Hf) as (A & B & C).
    rewrite A, B, C, Hdoc. done. }
  assert (Py.truthy answer = true -> answer = p ->
            files (fs (save_file_as answer w)) !! p = Some (document w)
            /\ faults (fs (save_file_as answer w)) p = None
            /\ current_file_path (self (save_file_as answer w)) = Some p) as Has.
  { intros Ha ->. unfold save_file_as. simpl. rewrite Ha.
    match goal with
    | |- context [save_file_to p ?x] => destruct (Hto x) as (A & B & C); [done | done |]
    end.
    by rewrite A, B, C. }
  destruct (current_file_path (self w)) as [q |] eqn:Hq.
  - destruct (Py.truthy q) eqn:Htq.
    + simplify_eq. destruct (Hto w) as (A & B & C); [done | done |].
      by rewrite A, B, C.
    + destruct (Py.truthy answer) eqn:Ha; simplify_eq. by apply Has.
  - destruct (Py.truthy answer) eqn:Ha; simplify_eq. by apply Has.
Qed.

Lemma open_file_read p w text :
  Py.truthy p = true -> read_text p (fs w) = inr text ->
  document (open_file p w) = text
  /\ current_file_path (self (open_file p w)) = Some p.
Proof.
  intros Hp Hr. unfold open_file. rewrite Hp. simpl. by rewrite Hr.
Qed.

(** C6.  [save_file] writes the editor text to its destination [p]; if
    that write is not refused, reopening [p], at once or after further
    editing, with the file system as the save left it, puts the saved
    text back in the editor. *)
Theorem save_then_open_roundtrip (w : World) (answer p : string) :
  save_destination answer w = Some p -> faults (fs w) p = None ->
  let saved := save_file answer w in
  files (fs saved) !! p = Some (document w)
  /\ document (open_file p saved) = document w
  /\ forall w', fs w' = fs saved -> document (open_file p w') = document w.
Proof.
  intros Hd Hf saved.
  destruct (save_file_written answer w p Hd Hf) as (A & B & C).
  pose proof (save_destination_truthy answer w p Hd) as Hp.
  assert (forall w', fs w' = fs saved -> document (open_file p w') = document w) as Hopen.
  { intros w' Hfs. apply (open_file_read p w' (document w) Hp).
    unfold read_text. rewrite Hfs. subst saved. by rewrite B, A. }
  split; [exact A |]. split; [by apply Hopen | exact Hopen].
Qed.

Lemma save_then_open_witness :
  let saved := save_file "/home/user/notes.md" typed_title in
  files (fs saved) !! "/home/user/notes.md" = Some (document typed_title)
  /\ document (open_file "/home/user/notes.md" saved) = document typed_title
  /\ forall w', fs w' = fs saved ->
       document (open_file "/home/user/notes.md" w') = document typed_title.
Proof.
  apply (save_then_open_roundtrip typed_title "/home/user/notes.md" "/home/user/notes.md").
  - vm_compute. reflexivity.
  - reflexivity.
Defined.

(** C9.  [save_file_as] assigns the chosen path and the window title,
    then attempts the write on the application so updated; when the
    write is refused, the new path and title stay and only an error is
    shown.  [open_file] on a path that cannot be read leaves path and
    title as they were; it assigns them once the read has succeeded. *)
Theorem save_as_not_rolled_back (w : World) (p : string) (e : Py.Exception) :
  Py.truthy p = true -> faults (fs w) p = Some e ->
  let chosen := on_self (set_windowTitle ("Python Markdown Viewer - " +:+ Py.basename p))
                  (on_self (set_current_file_path (Some p))
                     (log (FileDialog "Save Markdown File") w)) in
  let w1 := save_file_as p w in
  let w2 := open_file p w in
  w1 = save_file_to p chosen
  /\ current_file_path (self w1) = Some p
  /\ windowTitle (self w1) = "Python Markdown Viewer - " +:+ Py.basename p
  /\ fs w1 = fs w
  /\ head (trace w1)
     = Some (MessageBox Critical "Error" ("Could not save file: " +:+ Py.str_of_exception e))
  /\ current_file_path (self w2) = current_file_path (self w)
  /\ windowTitle (self w2) = windowTitle (self w)
  /\ head (trace w2)
     = Some (MessageBox Critical "Error" ("Could not open file: " +:+ Py.str_of_exception e))
  /\ forall w' text, read_text p (fs w') = inr text ->
       current_file_path (self (open_file p w')) = Some p.
Proof.
  intros Hp Hf chosen w1 w2. subst chosen w1 w2.
  unfold save_file_as, open_file, save_file_to, write_text, read_text.
  rewrite Hp. simpl. rewrite Hf. simpl.
  split_and!; try reflexivity.
  intros w' text Hr. rewrite Hr. reflexivity.
Qed.

Lemma save_as_not_rolled_back_witness :
  let w := __init__ sample_env read_only_fs 0 in
  let w1 := save_file_as "/etc/notes.md" w in
  current_file_path (self w) = None
  /\ current_file_path (self w1) = Some "/etc/notes.md"
  /\ windowTitle (self w1) = "Python Markdown Viewer - notes.md"
  /\ current_file_path (self (open_file "/etc/notes.md" w)) = None.
Proof.
  pose proof (save_as_not_rolled_back (__init__ sample_env read_only_fs 0) "/etc/notes.md"
                (Py.OSError "[Errno 13] Permission denied: '/etc/notes.md'")
                eq_refl eq_refl) as (_ & A & B & _ & _ & C & _).
  split; [reflexivity |]. split; [exact A |]. split; [exact B | exact C].
Defined.

(** ** Fonts *)

Lemma adjust_font_size_sizes delta w :
  let new_size := (editor_size w + delta / 2)%Z in
  let w' := adjust_font_size delta w in
  ((4 < new_size)%Z ->
     editor_size w' = new_size /\ ai_input_size w' = new_size /\ ai_output_size w' = new_size)
  /\ ((new_size <= 4)%Z ->
      editor_size w' = editor_size w /\ ai_input_size w' = ai_input_size w
      /\ ai_output_size w' = ai_output_size w).
Proof.
  unfold editor_size, ai_input_size, ai_output_size, adjust_font_size. simpl.
  destruct (Z.gtb_spec (pointSize (editor (self w)) + delta / 2) 4);
    split; intros; try lia; by simpl.
Qed.

Lemma adjust_font_size_above (size : World -> Z) delta w :
  (size (adjust_font_size delta w) = size w
   \/ size (adjust_font_size delta w) = (editor_size w + delta / 2)%Z
      /\ (4 < editor_size w + delta / 2)%Z) ->
  (4 < size w)%Z -> (4 < size (adjust_font_size delta w))%Z.
Proof. intros [-> | [-> H]] Hs; lia. Qed.

Lemma adjust_font_size_cases delta w :
  let new_size := (editor_size w + delta / 2)%Z in
  let w' := adjust_font_size delta w in
  (editor_size w' = editor_size w \/ editor_size w' = new_size /\ (4 < new_size)%Z)
  /\ (ai_input_size w' = ai_input_size w
      \/ ai_input_size w' = new_size /\ (4 < new_size)%Z)
  /\ (ai_output_size w' = ai_output_size w
      \/ ai_output_size w' = new_size /\ (4 < new_size)%Z).
Proof.
  destruct (adjust_font_size_sizes delta w) as [Hgt Hle]. simpl.
  destruct (Z.lt_ge_cases 4 (editor_size w + delta / 2)) as [H | H].
  - destruct (Hgt H) as (A & B & C). split_and!; right; by split.
  - destruct (Hle ltac:(lia)) as (A & B & C). split_and!; by left.
Qed.

Lemma adjust_all_above (size : World -> Z) :
  (forall delta w,
      size (adjust_font_size delta w) = size w
      \/ size (adjust_font_size delta w) = (editor_size w + delta / 2)%Z
         /\ (4 < editor_size w + delta / 2)%Z) ->
  forall deltas w, (4 < size w)%Z -> (4 < size (adjust_all deltas w))%Z.
Proof.
  intros Hcases deltas. induction deltas as [| delta deltas IH]; intros w Hs; [done |].
  simpl. apply IH. by apply adjust_font_size_above.
Qed.

(** C10.  One call of [adjust_font_size] sets the point size of the
    editor and of both AI panes to the editor's size plus [delta // 2]
    when that exceeds 4, and leaves all three as they were otherwise.
    Hence an editor size above 4 stays above 4 through any sequence of
    calls, and so does the size of each AI pane. *)
Theorem font_size_stays_above_four (deltas : list Z) (w : World) :
  (4 < editor_size w)%Z ->
  (forall delta w0,
      let new_size := (editor_size w0 + delta / 2)%Z in
      let w' := adjust_font_size delta w0 in
      ((4 < new_size)%Z ->
         editor_size w' = new_size /\ ai_input_size w' = new_size
         /\ ai_output_size w' = new_size)
      /\ ((new_size <= 4)%Z ->
          editor_size w' = editor_size w0 /\ ai_input_size w' = ai_input_size w0
          /\ ai_output_size w' = ai_output_size w0))
  /\ (4 < editor_size (adjust_all deltas w))%Z
  /\ ((4 < ai_input_size w)%Z -> (4 < ai_input_size (adjust_all deltas w))%Z)
  /\ ((4 < ai_output_size w)%Z -> (4 < ai_output_size (adjust_all deltas w))%Z).
Proof.
  intros He. split; [intros delta w0; apply adjust_font_size_sizes |].
  split_and!; [| intros H | intros H]; (apply adjust_all_above; [| done]);
    intros delta w0; destruct (adjust_font_size_cases delta w0) as (A & B & C); done.
Qed.

Lemma font_size_witness :
  (4 < editor_size (adjust_all [-2; -2; -2; -2; -2; -2; -2; 2]%Z started))%Z
  /\ editor_size (adjust_all [-2; -2; -2; -2; -2; -2; -2; 2]%Z started) = 6%Z.
Proof.
  split.
  - apply (fun H => proj1 (proj2 (font_size_stays_above_four
                                    [-2; -2; -2; -2; -2; -2; -2; 2]%Z started H))).
    vm_compute. reflexivity.
  - vm_compute. reflexivity.
Defined.

(** ** PDF export *)

(** C7.  With a path chosen and the call that starts the print job
    returning, [export_to_pdf] runs [handle_pdf_creation] with [True]
    right after that call: the status line and the success box are in
    the trace while the job is still among the page's unfinished jobs.
    Whether the job later finishes with or without success changes
    nothing in the trace: no failure is ever reported. *)
Theorem pdf_success_reported_before_completion (w : World) (file_path : string) :
  Py.truthy file_path = true ->
  let started_job := printToPdf file_path (log (FileDialog "Export to PDF") w) in
  let w' := export_to_pdf file_path None w in
  w' = handle_pdf_creation file_path true started_job
  /\ trace w'
     = MessageBox Information "Success" ("PDF successfully exported to " +:+ file_path)
         :: ShowMessage ("Exported to " +:+ file_path) (Some 3000%Z)
         :: PrintToPdf file_path :: FileDialog "Export to PDF" :: trace w
  /\ printing (preview (self w')) = (printing (preview (self w)) ++ [file_path])%list
  /\ forall success, trace (pdf_printing_finished success w') = trace w'.
Proof.
  intros Hp started_job w'. subst started_job w'.
  unfold export_to_pdf. rewrite Hp. simpl. by split_and!.
Qed.

Lemma pdf_success_witness :
  let w' := export_to_pdf "/home/user/out.pdf" None started in
  head (trace w')
  = Some (MessageBox Information "Success" "PDF successfully exported to /home/user/out.pdf")
  /\ printing (preview (self w')) = ["/home/user/out.pdf"]
  /\ trace (pdf_printing_finished false w') = trace w'.
Proof.
  pose proof (pdf_success_reported_before_completion started "/home/user/out.pdf" eq_refl)
    as (_ & A & B & C).
  split; [by rewrite A |]. split; [exact B | exact (C false)].
Defined.

(** ** Cached styles *)

(** C8.  [__init__] asks Pygments for style definitions twice, in
    [load_styles], and in a running application the cached fragments are
    still those and no further request has been made.  [on_text_changed],
    [update_preview] and [toggle_dark_mode] keep the cached fragments and
    make no request; [toggle_dark_mode] sets the current bundle to a
    concatenation of cached fragments. *)
Theorem styles_generated_once (env : Env) (w : World) :
  reachable env w ->
  (forall d t0,
      trace (load_styles env {| self := unassigned env; fs := d; now := t0; trace := [] |})
      = [GetStyleDefs "monokai" ".codehilite"; GetStyleDefs "default" ".codehilite"]
      /\ style_requests (__init__ env d t0) = 2)
  /\ style_requests w = 2
  /\ cached (self w) = startup_styles env
  /\ styles_kept w (on_text_changed w)
  /\ (forall html_content, styles_kept w (update_preview env html_content w))
  /\ styles_kept w (toggle_dark_mode env w)
  /\ current_css (self (toggle_dark_mode env w)) = selected_bundle (self w).
Proof.
  intros R. destruct (reachable_loaded env w R) as [L1 L2 L3].
  split_and!.
  - intros d t0. split; [reflexivity |].
    apply (loaded_requests env _ (init_loaded env d t0)).
  - exact L2.
  - exact L1.
  - apply theme_kept_styles, on_text_changed_theme.
  - intros h. apply theme_kept_styles, update_preview_theme.
  - apply toggle_dark_mode_styles.
  - unfold toggle_dark_mode, selected_bundle.
    match goal with
    | |- context [update_preview env None ?x] =>
        destruct (update_preview_theme env None x) as (_ & _ & ->)
    end.
    by destruct (dark_mode_action (self w)).
Qed.

Lemma styles_generated_once_witness :
  style_requests started = 2
  /\ cached (self started) = startup_styles sample_env
  /\ styles_kept started (toggle_dark_mode sample_env started)
  /\ current_css (self (toggle_dark_mode sample_env started))
     = selected_bundle (self started).
Proof.
  pose proof (styles_generated_once sample_env started (reachable_init sample_env empty_fs 0))
    as (_ & A & B & _ & _ & C & D).
  split; [exact A |]. split; [exact B |]. split; [exact C | exact D].
Defined.

(** * Further properties *)

(** ** What each event leaves alone *)

Ltac frame_step :=
  unfold editor_setPlainText, on_text_changed, elapse, open_file, save_file, save_file_as,
    save_file_to, export_to_html, export_to_pdf, handle_pdf_creation, printToPdf,
    pdf_printing_finished, toggle_dark_mode, adjust_font_size, prepare_ai_tab,
    run_ai_generation, get_api_key, update_preview, write_text, read_text;
  repeat first [ progress simpl | case_match ];
  simplify_eq; simpl;
  try (split_and?; reflexivity).

Section EventFrames.

Variable env : Env.

Lemma step_keys_kept ev w :
  match ev with
  | AiButtonClicked _ _ _ => True
  | _ => keys_kept w (step env ev w)
  end.
Proof. destruct ev; simpl; try exact I; unfold keys_kept; frame_step. Qed.

Lemma step_sheets_kept ev w :
  match ev with
  | DarkModeTriggered => True
  | _ => sheets_kept w (step env ev w)
  end.
Proof. destruct ev; simpl; try exact I; unfold sheets_kept, dark; frame_step. Qed.

Lemma step_page_kept ev w :
  match ev with
  | DarkModeTriggered | Elapse _ => True
  | _ => page_kept w (step env ev w)
  end.
Proof. destruct ev; simpl; try exact I; unfold page_kept, dark; frame_step. Qed.

Lemma step_clock_kept ev w :
  match ev with
  | TextEdited _ | Elapse _ | OpenTriggered _ => True
  | _ => clock_kept w (step env ev w)
  end.
Proof. destruct ev; simpl; try exact I; unfold clock_kept; frame_step. Qed.

End EventFrames.

(** ** Invariants of a running application *)

Section MoreInvariants.

Variable env : Env.

(** The fields of the controller when [__init__] returns. *)
Lemma update_preview_fields h w :
  let w' := update_preview env h w in
  keys_kept w w' /\ sheets_kept w w' /\ clock_kept w w' /\ files_kept w w'
  /\ path_kept w w'.
Proof. unfold update_preview. repeat case_match; by split_and!. Qed.

Lemma init_fields d t0 :
  let w := __init__ env d t0 in
  api_key_set (self w) = false /\ gemini_api_key (self w) = None
  /\ update_timer (self w) = None /\ dark w = false
  /\ styleSheet (editor (self w)) = light_editor_style
  /\ styleSheet (ai_input_text (self w)) = ""
  /\ styleSheet (ai_output_text (self w)) = ""
  /\ current_file_path (self w) = None /\ document w = ""
  /\ fs w = d /\ now w = t0.
Proof.
  unfold __init__. cbv zeta.
  match goal with
  | |- context [update_preview env None ?x] =>
      destruct (update_preview_fields None x)
        as ((K1 & K2) & (S1 & S2 & S3 & S4) & (C1 & C2) & F & (P1 & P2 & P3))
  end.
  unfold files_kept, dark, document in *.
  rewrite K1, K2, S1, S2, S3, S4, C1, C2, F, P1, P3.
  vm_compute. by split_and!.
Qed.

Lemma get_api_key_consistent answer validate w :
  key_consistent w ->
  key_consistent (snd (get_api_key answer validate w))
  /\ (fst (get_api_key answer validate w) = true ->
      has_key (snd (get_api_key answer validate w)) = true).
Proof.
  intros Hk. destruct answer as [text ok]. unfold get_api_key, has_key.
  destruct (api_key_set (self w) && Py.truthy_opt (gemini_api_key (self w))) eqn:Hg.
  - simpl. by split.
  - destruct (ok && Py.truthy text) eqn:Hin.
    + apply andb_true_iff in Hin as [_ Ht].
      destruct (validate text); simpl.
      * split; [right; by split | discriminate].
      * split; [left; split; [done | by exists text] | by rewrite Ht].
    + simpl. split; [exact Hk | discriminate].
Qed.

Lemma run_ai_generation_keys answer validate generate w :
  keys_kept (snd (get_api_key answer validate w))
            (run_ai_generation answer validate generate w)
  \/ keys_kept w (run_ai_generation answer validate generate w).
Proof.
  unfold run_ai_generation.
  destruct (negb _); [right; by split |].
  destruct (get_api_key answer validate w) as [have w'] eqn:Hg. simpl.
  left. destruct have; simpl; [| by split]. destruct (generate _); by split.
Qed.

Lemma keys_kept_consistent w w' : keys_kept w w' -> key_consistent w -> key_consistent w'.
Proof. intros [H1 H2]. unfold key_consistent. by rewrite H1, H2. Qed.

Lemma step_key_consistent ev w : key_consistent w -> key_consistent (step env ev w).
Proof.
  intros Hk. pose proof (step_keys_kept env ev w) as Hf.
  destruct ev; try (by apply (keys_kept_consistent w)).
  simpl. destruct (run_ai_generation_keys answer validate generate w) as [H | H].
  - apply (keys_kept_consistent _ _ H). by apply get_api_key_consistent.
  - by apply (keys_kept_consistent w).
Qed.

Lemma reachable_key_consistent w : reachable env w -> key_consistent w.
Proof.
  induction 1 as [d t0 | ev w _ IH]; [| by apply step_key_consistent].
  right. destruct (init_fields d t0) as (A & B & _). by split.
Qed.

Lemma step_timer_bounded ev w : timer_bounded w -> timer_bounded (step env ev w).
Proof.
  intros Hb. pose proof (step_clock_kept env ev w) as Hf.
  destruct ev;
    try (match type of Hf with
         | clock_kept _ _ =>
             destruct Hf as [Hn Ht]; unfold timer_bounded; rewrite Hn, Ht; exact Hb
         end).
  - intros due. simpl. intros [= <-]. lia.
  - simpl. unfold elapse, timer_bounded in *.
    destruct (update_timer (self w)) as [due0 |] eqn:Ht.
    + destruct (Nat.leb_spec due0 (now w + ms)).
      * match goal with
        | |- context [update_preview env None ?x] =>
            assert (update_timer (self (update_preview env None x)) = None) as Hnone
              by (unfold update_preview; repeat case_match; reflexivity)
        end.
        simpl. rewrite Hnone. discriminate.
      * simpl. rewrite Ht. intros due [= <-]. specialize (Hb due0 eq_refl). lia.
    + simpl. rewrite Ht. discriminate.
  - simpl. unfold open_file. destruct (Py.truthy file_path); [| exact Hb].
    simpl. destruct (read_text file_path (fs w)) as [e | text]; [exact Hb |].
    intros due. simpl. intros [= <-]. lia.
Qed.

Lemma reachable_timer_bounded w : reachable env w -> timer_bounded w.
Proof.
  induction 1 as [d t0 | ev w _ IH]; [| by apply step_timer_bounded].
  intros due. destruct (init_fields d t0) as (_ & _ & -> & _). discriminate.
Qed.

End MoreInvariants.

Section ThemeInvariants.

Variable env : Env.

Lemma toggle_dark_mode_sheets w :
  let w' := toggle_dark_mode env w in
  dark w' = dark w
  /\ styleSheet (editor (self w')) = editor_style_of (dark w)
  /\ styleSheet (ai_input_text (self w')) = ai_style_of (dark w)
  /\ styleSheet (ai_output_text (self w')) = ai_style_of (dark w).
Proof.
  unfold toggle_dark_mode. cbv zeta.
  match goal with
  | |- context [update_preview env None ?x] =>
      destruct (update_preview_fields env None x) as (_ & (S1 & S2 & S3 & S4) & _)
  end.
  rewrite S1, S2, S3, S4. unfold dark, editor_style_of, ai_style_of.
  destruct (dark_mode_action (self w)) eqn:Hd; simpl; rewrite ?Hd; by split_and!.
Qed.

Lemma step_sheets_follow ev w : sheets_follow_theme w -> sheets_follow_theme (step env ev w).
Proof.
  intros (He & Heq & Hai). pose proof (step_sheets_kept env ev w) as Hf.
  destruct ev;
    try (match type of Hf with
         | sheets_kept _ _ =>
             destruct Hf as (Hd & H1 & H2 & H3); unfold sheets_follow_theme;
             rewrite Hd, H1, H2, H3; by split_and!
         end).
  simpl.
  match goal with
  | |- context [toggle_dark_mode env ?x] =>
      destruct (toggle_dark_mode_sheets x) as (Hd & H1 & H2 & H3)
  end.
  unfold sheets_follow_theme. rewrite Hd, H1, H2, H3. split_and!; [done | done | by left].
Qed.

Lemma reachable_sheets_follow w : reachable env w -> sheets_follow_theme w.
Proof.
  induction 1 as [d t0 | ev w _ IH]; [| by apply step_sheets_follow].
  destruct (init_fields env d t0) as (_ & _ & _ & Hd & He & Hi & Ho & _).
  unfold sheets_follow_theme. rewrite Hd, He, Hi, Ho. split_and!; [done | done | by right].
Qed.

Lemma step_page_follows ev w :
  styles_loaded env w -> page_follows_theme env w -> page_follows_theme env (step env ev w).
Proof.
  intros L (text & b & Hc). pose proof (step_page_kept env ev w) as Hf.
  destruct ev;
    try (match type of Hf with
         | page_kept _ _ =>
             destruct Hf as (Hd & Hk); exists text, b; by rewrite Hd, Hk
         end).
  - simpl. unfold elapse.
    destruct (update_timer (self w)) as [due |] eqn:Ht;
      [destruct (Nat.leb_spec due (now w + ms)) |]; try (by exists text, b).
    destruct (elapse_due env ms due w L Ht ltac:(lia))
      as ((b' & Htr) & Hr & _ & _ & Hdk & _).
    unfold elapse in Hr, Hdk. rewrite Ht in Hr, Hdk.
    destruct (Nat.leb_spec due (now w + ms)); [| lia].
    unfold rendered in Hr.
    match goal with
    | |- page_follows_theme env ?x =>
        destruct (content (preview (self x))) as [[html base] |] eqn:Hcx; [| discriminate];
        exists (document w), base; unfold page_follows_theme; simpl in Hr;
        injection Hr as ->; by rewrite Hcx, Hdk
    end.
  - simpl. destruct L as [L1 L2 L3].
    match goal with
    | |- context [toggle_dark_mode env ?x] =>
        destruct (toggle_dark_mode_rendered env x L1 L2) as (Hr & Hdoc & Hdk);
        unfold rendered in Hr;
        destruct (content (preview (self (toggle_dark_mode env x))))
          as [[html base] |] eqn:Hcx; [| discriminate];
        exists (document x), base; simpl in Hr; injection Hr as ->
    end.
    unfold page_follows_theme. by rewrite Hcx, Hdk.
Qed.

Lemma reachable_page_follows w : reachable env w -> page_follows_theme env w.
Proof.
  induction 1 as [d t0 | ev w Hw IH].
  - unfold __init__. cbv zeta.
    match goal with
    | |- context [update_preview env None ?x] =>
        assert (styles_loaded env x) as L
          by (match goal with
              | |- styles_loaded _ (on_self _ ?y) => apply (styles_loaded_kept env y)
              end; [apply set_update_timer_theme | apply load_styles_loaded; reflexivity]);
        destruct (update_preview_loaded env x L) as (b & Hc & _ & _ & Hdk & _)
    end.
    cbv zeta in Hc, Hdk. eexists _, b. unfold page_follows_theme. by rewrite Hc, Hdk.
  - apply step_page_follows; [by apply reachable_loaded | exact IH].
Qed.

End ThemeInvariants.

(** ** Properties of the running application *)

(** X1.  In a running application the two credential fields agree:
    either [api_key_set] holds with a non-empty [gemini_api_key], or it
    does not and the key is [None].  So the guard of [get_api_key] is
    decided by [api_key_set] alone. *)
Theorem credential_fields_agree (env : Env) (w : World) :
  reachable env w ->
  key_consistent w /\ has_key w = api_key_set (self w).
Proof.
  intros R. pose proof (reachable_key_consistent env w R) as Hk.
  split; [exact Hk |]. unfold has_key.
  destruct Hk as [(-> & key & -> & Ht) | (-> & ->)]; simpl; by rewrite ?Ht.
Qed.

Lemma credential_fields_agree_witness :
  (key_consistent key_refused /\ has_key key_refused = api_key_set (self key_refused))
  /\ api_key_set (self key_refused) = false
  /\ api_key_set (self key_granted) = true.
Proof.
  split.
  - apply (credential_fields_agree sample_env key_refused).
    apply reachable_step, reachable_step, reachable_init.
  - split; vm_compute; reflexivity.
Defined.

(** X2.  In a running application, once a quiet window (300 ms) or more
    has passed without an event, no render is pending and the page shows
    the HTML of the current document under the current theme. *)
Theorem preview_fresh_after_quiet_window (env : Env) (w : World) (ms : nat) :
  reachable env w -> quiet_window <= ms ->
  let w' := step env (Elapse ms) w in
  update_timer (self w') = None
  /\ document w' = document w /\ dark w' = dark w
  /\ rendered w' = Some (render_html env (document w) (dark w)).
Proof.
  intros R Hms w'. subst w'. rewrite step_elapse.
  pose proof (reachable_loaded env w R) as L.
  destruct (update_timer (self w)) as [due |] eqn:Ht.
  - pose proof (reachable_timer_bounded env w R due Ht) as Hb.
    destruct (elapse_due env ms due w L Ht ltac:(lia)) as (_ & Hr & Hn & Hdoc & Hdk & _).
    by split_and!.
  - pose proof (reachable_settled env w R Ht) as Hs.
    unfold elapse. rewrite Ht. by split_and!.
Qed.

Lemma preview_fresh_witness :
  let w' := step sample_env (Elapse 300) typed_title in
  update_timer (self w') = None
  /\ document w' = document typed_title /\ dark w' = dark typed_title
  /\ rendered w' = Some (render_html sample_env (document typed_title) (dark typed_title)).
Proof.
  apply (preview_fresh_after_quiet_window sample_env typed_title 300).
  - apply reachable_step, reachable_init.
  - unfold quiet_window. lia.
Defined.

(** X3.  In a running application the page always shows a document
    rendered under the current theme: the text may lag behind the
    editor while a render is pending, the CSS bundle never does. *)
Theorem page_shows_current_theme (env : Env) (w : World) :
  reachable env w ->
  exists text base_url,
    content (preview (self w)) = Some (render_html env text (dark w), base_url).
Proof. apply reachable_page_follows. Qed.

Lemma page_shows_current_theme_witness :
  exists text base_url,
    content (preview (self (step sample_env DarkModeTriggered typed_title)))
    = Some (render_html sample_env text
              (dark (step sample_env DarkModeTriggered typed_title)), base_url).
Proof.
  apply (page_shows_current_theme sample_env (step sample_env DarkModeTriggered typed_title)).
  apply reachable_step, reachable_step, reachable_init.
Defined.

(** X4.  In a running application the editor's style sheet is the one
    of the current theme, and the two AI panes carry the same style
    sheet: that of the current theme, or none while the theme has never
    been toggled. *)
Theorem style_sheets_follow_theme (env : Env) (w : World) :
  reachable env w ->
  styleSheet (editor (self w)) = editor_style_of (dark w)
  /\ styleSheet (ai_input_text (self w)) = styleSheet (ai_output_text (self w))
  /\ (styleSheet (ai_input_text (self w)) = ai_style_of (dark w)
      \/ styleSheet (ai_input_text (self w)) = "" /\ dark w = false).
Proof. apply reachable_sheets_follow. Qed.

Lemma style_sheets_witness :
  styleSheet (editor (self started_dark)) = editor_style_of (dark started_dark)
  /\ styleSheet (ai_input_text (self started_dark))
     = styleSheet (ai_output_text (self started_dark))
  /\ (styleSheet (ai_input_text (self started_dark)) = ai_style_of (dark started_dark)
      \/ styleSheet (ai_input_text (self started_dark)) = "" /\ dark started_dark = false).
Proof.
  apply (style_sheets_follow_theme sample_env started_dark).
  apply reachable_step, reachable_init.
Defined.

Lemma theme_toggle_frame (env : Env) (w : World) :
  let w' := step env DarkModeTriggered w in
  document w' = document w
  /\ update_timer (self w') = update_timer (self w)
  /\ (styles_loaded env w ->
      rendered w' = Some (render_html env (document w) (negb (dark w)))).
Proof.
  simpl. unfold toggle_dark_mode. cbv zeta.
  match goal with
  | |- context [update_preview env None ?x] =>
      destruct (update_preview_fields env None x) as (_ & _ & (_ & C2) & _ & (_ & _ & P3))
  end.
  split_and!.
  - rewrite P3. unfold document. simpl. by destruct (negb _).
  - rewrite C2. simpl. by destruct (negb _).
  - intros [L1 L2 L3].
    match goal with
    | |- context [update_preview env None ?x] =>
        change (update_preview env None x)
          with (toggle_dark_mode env
                  (on_self (fun s => set_dark_mode_action (negb (dark_mode_action s)) s) w))
    end.
    match goal with
    | |- context [toggle_dark_mode env ?x] =>
        destruct (toggle_dark_mode_rendered env x L1 L2) as (Hr & _)
    end.
    exact Hr.
Qed.

Lemma dark_after_toggle (env : Env) (w : World) :
  dark (step env DarkModeTriggered w) = negb (dark w).
Proof.
  simpl.
  match goal with
  | |- context [toggle_dark_mode env ?x] =>
      destruct (toggle_dark_mode_sheets env x) as (Hd & _)
  end.
  by rewrite Hd.
Qed.

(** X5.  Toggling the theme twice brings back the theme flag, the
    current CSS bundle and the editor's style sheet, keeps the document
    and any pending render, and leaves the page showing the current
    document under the restored theme. *)
Theorem theme_toggle_twice (env : Env) (w : World) :
  reachable env w ->
  let w2 := step env DarkModeTriggered (step env DarkModeTriggered w) in
  dark w2 = dark w
  /\ current_css (self w2) = current_css (self w)
  /\ styleSheet (editor (self w2)) = styleSheet (editor (self w))
  /\ document w2 = document w
  /\ update_timer (self w2) = update_timer (self w)
  /\ rendered w2 = Some (render_html env (document w) (dark w)).
Proof.
  intros R w2.
  set (w1 := step env DarkModeTriggered w) in *.
  assert (reachable env w1) as R1 by (by apply reachable_step).
  assert (reachable env w2) as R2 by (by apply reachable_step).
  assert (dark w2 = dark w) as Hd.
  { subst w2 w1. rewrite !dark_after_toggle. apply negb_involutive. }
  destruct (theme_toggle_frame env w) as (D1 & T1 & _).
  destruct (theme_toggle_frame env w1) as (D2 & T2 & Hr).
  fold w1 in D1, T1. fold w2 in D2, T2, Hr.
  split_and!.
  - exact Hd.
  - rewrite (loaded_current env w2 (reachable_loaded env w2 R2)).
    rewrite (loaded_current env w (reachable_loaded env w R)). by rewrite Hd.
  - destruct (reachable_sheets_follow env w2 R2) as (-> & _).
    destruct (reachable_sheets_follow env w R) as (-> & _). by rewrite Hd.
  - by rewrite D2, D1.
  - by rewrite T2, T1.
  - specialize (Hr (reachable_loaded env w1 R1)).
    rewrite Hr, D1. subst w2 w1. by rewrite dark_after_toggle, negb_involutive.
Qed.

Lemma theme_toggle_twice_witness :
  let w2 := step sample_env DarkModeTriggered (step sample_env DarkModeTriggered typed_title) in
  dark w2 = dark typed_title
  /\ current_css (self w2) = current_css (self typed_title)
  /\ styleSheet (editor (self w2)) = styleSheet (editor (self typed_title))
  /\ document w2 = document typed_title
  /\ update_timer (self w2) = update_timer (self typed_title)
  /\ rendered w2 = Some (render_html sample_env (document typed_title) (dark typed_title)).
Proof.
  apply (theme_toggle_twice sample_env typed_title).
  apply reachable_step, reachable_init.
Defined.

(** ** The AI assistant *)

Lemma get_api_key_quiet answer validate w :
  requests (snd (get_api_key answer validate w)) = requests w
  /\ plainText (ai_output_text (self (snd (get_api_key answer validate w))))
     = plainText (ai_output_text (self w))
  /\ plainText (ai_input_text (self (snd (get_api_key answer validate w))))
     = plainText (ai_input_text (self w))
  /\ (fst (get_api_key answer validate w) = true ->
      has_key (snd (get_api_key answer validate w)) = true).
Proof.
  destruct answer as [text ok]. unfold get_api_key, has_key, requests.
  destruct (api_key_set (self w) && Py.truthy_opt (gemini_api_key (self w))) eqn:Hg.
  - by split_and!.
  - destruct (ok && Py.truthy text) eqn:Hin; [| by split_and!].
    apply andb_true_iff in Hin as [_ Ht].
    destruct (validate text); simpl; split_and!; try done; by rewrite Ht.
Qed.

Lemma get_api_key_held answer validate w :
  has_key w = true -> get_api_key answer validate w = (true, w).
Proof. unfold has_key, get_api_key. by intros ->. Qed.



(** X6.  [run_ai_generation] never sends a generation request without
    a usable key: with an empty input pane it changes nothing in the
    controller and neither prompts nor sends; when [get_api_key] returns
    [False] nothing is sent and the response pane keeps its text; and
    whenever a request is sent (at most one), a non-empty key is cached
    afterwards and the input pane was not empty. *)
Theorem generation_request_needs_key
        (answer : string * bool) (validate : string -> option Py.Exception)
        (generate : string -> Py.Exception + string) (w : World) :
  let w' := run_ai_generation answer validate generate w in
  let content_to_analyze := plainText (ai_input_text (self w)) in
  (Py.truthy content_to_analyze = false ->
   self w' = self w /\ prompts w' = prompts w /\ requests w' = requests w)
  /\ (fst (get_api_key answer validate w) = false ->
      requests w' = requests w
      /\ plainText (ai_output_text (self w')) = plainText (ai_output_text (self w)))
  /\ (requests w' = requests w
      \/ requests w' = requests w + 1 /\ has_key w' = true
         /\ Py.truthy content_to_analyze = true).
Proof.
  cbv zeta. unfold run_ai_generation.
  destruct (get_api_key_quiet answer validate w) as (Hq & Ho & _ & Hh).
  destruct (Py.truthy (plainText (ai_input_text (self w)))) eqn:Hc; simpl.
  - destruct (get_api_key answer validate w) as [have w1] eqn:Hg. simpl in *.
    split; [discriminate |]. destruct have; simpl.
    + split; [discriminate |]. right.
      specialize (Hh eq_refl). unfold has_key in *.
      destruct (generate _); unfold requests in *; simpl; rewrite Hq;
        (split_and!; [lia | exact Hh | reflexivity]).
    + split; [by intros _ | by left].
  - split; [by intros _ |]. split; [by intros _ | by left].
Qed.

(** X7.  With a usable key cached and a non-empty input pane,
    [run_ai_generation] shows no key prompt, sends exactly one request,
    whose prompt is [prompt_of] the input pane, and keeps the key and the
    input pane.  If the service answers, the response pane holds the
    answer, with the placeholder set before the request.  If it raises,
    the response pane keeps its text, its placeholder tells of the error
    and an error box with the exception's text is shown. *)
Theorem generation_outcome
        (answer : string * bool) (validate : string -> option Py.Exception)
        (generate : string -> Py.Exception + string) (w : World) :
  has_key w = true -> Py.truthy (plainText (ai_input_text (self w))) = true ->
  let prompt := prompt_of (plainText (ai_input_text (self w))) in
  let w' := run_ai_generation answer validate generate w in
  prompts w' = prompts w /\ requests w' = requests w + 1
  /\ GenerateContent prompt ∈ trace w'
  /\ keys_kept w w' /\ has_key w' = true
  /\ plainText (ai_input_text (self w')) = plainText (ai_input_text (self w))
  /\ (forall text, generate prompt = inr text ->
        plainText (ai_output_text (self w')) = text
        /\ placeholderText (ai_output_text (self w')) = "Generating response...")
  /\ (forall e, generate prompt = inl e ->
        plainText (ai_output_text (self w')) = plainText (ai_output_text (self w))
        /\ placeholderText (ai_output_text (self w')) = "An error occurred."
        /\ MessageBox Critical "AI Error"
             ("An error occurred while contacting the AI service: "
              +:+ Py.str_of_exception e) ∈ trace w').
Proof.
  intros Hk Hc. cbv zeta. unfold run_ai_generation.
  rewrite Hc, (get_api_key_held answer validate w Hk). simpl.
  unfold has_key, keys_kept in *.
  destruct (generate _) as [e | text]; unfold prompts, requests; simpl;
    (split_and!;
     [lia | lia | set_solver | reflexivity | reflexivity | exact Hk | reflexivity | |]);
    intros x Hx; simplify_eq; split_and!; try reflexivity; set_solver.
Qed.

Lemma generation_outcome_witness :
  let w' := run_ai_generation ("", false) rejecting failing_service key_granted in
  let w'' := run_ai_generation ("", false) rejecting sample_reply key_granted in
  (prompts w' = prompts key_granted
   /\ plainText (ai_output_text (self w')) = plainText (ai_output_text (self key_granted))
   /\ placeholderText (ai_output_text (self w')) = "An error occurred.")
  /\ plainText (ai_output_text (self w'')) = "A short summary.".
Proof.
  pose proof (generation_outcome ("", false) rejecting failing_service key_granted
                eq_refl eq_refl) as (A & _ & _ & _ & _ & _ & _ & B).
  pose proof (generation_outcome ("", false) rejecting sample_reply key_granted
                eq_refl eq_refl) as (_ & _ & _ & _ & _ & _ & C & _).
  destruct (B _ eq_refl) as (B1 & B2 & _).
  split; [split_and!; [exact A | exact B1 | exact B2] | exact (proj1 (C _ eq_refl))].
Defined.



(** ** Files *)

Lemma write_text_only_path p t d d' :
  write_text p t d = inr d' -> only_path_changed p d d' /\ files d' !! p = Some t.
Proof.
  unfold write_text. destruct (faults d p); [discriminate |]. intros [= <-]. simpl.
  split; [split; [reflexivity |] |].
  - intros q Hq. simpl. by rewrite lookup_insert_ne.
  - simpl. by rewrite lookup_insert_eq.
Qed.

Lemma only_path_changed_refl p d : only_path_changed p d d.
Proof. by split. Qed.

Lemma save_file_to_frame p w :
  only_path_changed p (fs w) (fs (save_file_to p w))
  /\ self (save_file_to p w) = self w.
Proof.
  unfold save_file_to.
  destruct (write_text p _ (fs w)) as [e | d'] eqn:Hw; simpl.
  - split; [apply only_path_changed_refl | reflexivity].
  - split; [by apply (write_text_only_path _ _ _ _ Hw) | reflexivity].
Qed.

(** X9.  [export_to_html] changes the file system at the chosen path
    at most, and nothing of the document, the current path, the window
    title, the pending render or the page; a later Save goes where it
    would have gone before the export. *)
Theorem export_html_touches_only_its_path (env : Env) (p : string) (w : World) :
  let w' := export_to_html env p w in
  only_path_changed p (fs w) (fs w')
  /\ self w' = self w
  /\ (forall answer, save_destination answer w' = save_destination answer w)
  /\ (Py.truthy p = false -> fs w' = fs w).
Proof.
  cbv zeta.
  assert (self (export_to_html env p w) = self w) as Hs.
  { unfold export_to_html. repeat case_match; reflexivity. }
  split_and!.
  - unfold export_to_html. destruct (Py.truthy p); [| apply only_path_changed_refl].
    cbv zeta. destruct (Py.format _ _) as [e | html]; [apply only_path_changed_refl |].
    destruct (write_text p html _) as [e | d'] eqn:Hw; [apply only_path_changed_refl |].
    by apply (write_text_only_path _ _ _ _ Hw).
  - exact Hs.
  - intros answer. unfold save_destination. by rewrite Hs.
  - intros Hp. unfold export_to_html. by rewrite Hp.
Qed.

(** X10.  In a running application, an export to a path that cannot be
    opened leaves the file system as it is and shows one error box
    carrying the exception's text, with no success message; a cancelled
    export dialog does nothing at all besides having been shown. *)
Theorem export_html_failure (env : Env) (p : string) (e : Py.Exception) (w : World) :
  reachable env w -> Py.truthy p = true -> faults (fs w) p = Some e ->
  fs (export_to_html env p w) = fs w
  /\ trace (export_to_html env p w)
     = MessageBox Critical "Error" ("Could not export HTML: " +:+ Py.str_of_exception e)
         :: FileDialog "Export to HTML" :: trace w
  /\ export_to_html env "" w = log (FileDialog "Export to HTML") w.
Proof.
  intros R Hp Hf. destruct (reachable_loaded env w R) as [L1 L2 L3].
  injection L1 as H1 H2 H3 H4 H5.
  unfold export_to_html. rewrite Hp. simpl.
  rewrite H5, L3, format_html_template. unfold write_text. rewrite Hf. by split_and!.
Qed.

Lemma export_html_failure_witness :
  let w := __init__ sample_env read_only_fs 0 in
  fs (export_to_html sample_env "/etc/notes.md" w) = fs w
  /\ head (trace (export_to_html sample_env "/etc/notes.md" w))
     = Some (MessageBox Critical "Error"
               "Could not export HTML: [Errno 13] Permission denied: '/etc/notes.md'").
Proof.
  pose proof (export_html_failure sample_env "/etc/notes.md"
                (Py.OSError "[Errno 13] Permission denied: '/etc/notes.md'")
                (__init__ sample_env read_only_fs 0)
                (reachable_init sample_env read_only_fs 0) eq_refl eq_refl) as (A & B & _).
  split; [exact A | by rewrite B].
Defined.

(** X11.  [save_file] changes the file system at its destination at
    most and shows the Save As dialog only when there is no current
    path; when there is no destination (no current path and the dialog
    cancelled) the controller and the file system are left as they are. *)
Theorem save_touches_only_destination (answer : string) (w : World) :
  let w' := save_file answer w in
  document w' = document w
  /\ (Py.truthy_opt (current_file_path (self w)) = true ->
      file_dialogs w' = file_dialogs w /\ self w' = self w)
  /\ match save_destination answer w with
     | Some p => only_path_changed p (fs w) (fs w') /\ current_file_path (self w') = Some p
     | None => fs w' = fs w /\ self w' = self w
     end.
Proof.
  cbv zeta. unfold save_file, save_destination.
  assert (forall a, match (if Py.truthy a then Some a else None) with
                    | Some p => only_path_changed p (fs w) (fs (save_file_as a w))
                                /\ current_file_path (self (save_file_as a w)) = Some p
                    | None => fs (save_file_as a w) = fs w /\ self (save_file_as a w) = self w
                    end /\ document (save_file_as a w) = document w) as Has.
  { intros a. unfold save_file_as. destruct (Py.truthy a); [| by split_and!]. cbv zeta.
    match goal with
    | |- context [save_file_to a ?x] => destruct (save_file_to_frame a x) as (Hf & Hs)
    end.
    unfold document. rewrite Hs. by split_and!. }
  destruct (current_file_path (self w)) as [q |] eqn:Hq; simpl;
    [destruct (Py.truthy q) eqn:Htq |].
  - destruct (save_file_to_frame q w) as (Hf & Hs). unfold document, file_dialogs.
    rewrite Hs, Hq. split_and!; try done.
    intros _. split; [| done]. unfold save_file_to.
    by destruct (write_text q _ (fs w)).
  - destruct (Has answer) as (A & B). split_and!; [exact B | discriminate | exact A].
  - destruct (Has answer) as (A & B). split_and!; [exact B | discriminate | exact A].
Qed.

(** X13.  An open that is cancelled, or whose file is missing or cannot
    be read, leaves the controller (editor text, path, title, pending
    render) and the file system as they were; unless it was cancelled,
    one error box is shown.  A missing file raises the "No such file"
    error. *)
Theorem failed_open_changes_nothing (p : string) (w : World) :
  Py.truthy p = false \/ files (fs w) !! p = None \/ is_Some (faults (fs w) p) ->
  let w' := open_file p w in
  self w' = self w /\ fs w' = fs w
  /\ (Py.truthy p = false -> trace w' = FileDialog "Open Markdown File" :: trace w)
  /\ (Py.truthy p = true ->
      exists e, read_text p (fs w) = inl e
        /\ trace w' = MessageBox Critical "Error"
                        ("Could not open file: " +:+ Py.str_of_exception e)
                        :: FileDialog "Open Markdown File" :: trace w)
  /\ (Py.truthy p = true -> faults (fs w) p = None ->
      read_text p (fs w) = inl (no_such_file p)).
Proof.
  intros H. cbv zeta. unfold open_file.
  destruct (Py.truthy p) eqn:Hp; [| by split_and!].
  destruct H as [H | H]; [discriminate |].
  assert (exists e, read_text p (fs w) = inl e) as [e He].
  { unfold read_text. destruct H as [H | [e H]].
    - rewrite H. destruct (faults (fs w) p); eauto.
    - rewrite H. eauto. }
  simpl. rewrite He. split_and!; try done.
  - intros _. by exists e.
  - intros _ Hf. destruct H as [H | [e' H]]; [| congruence].
    unfold read_text in He. rewrite Hf, H in He. by simplify_eq.
Qed.

Lemma failed_open_witness :
  let w' := open_file "/home/user/missing.md" typed_title in
  self w' = self typed_title /\ fs w' = fs typed_title
  /\ read_text "/home/user/missing.md" (fs typed_title)
     = inl (no_such_file "/home/user/missing.md").
Proof.
  pose proof (failed_open_changes_nothing "/home/user/missing.md" typed_title
                (or_intror (or_introl eq_refl))) as (A & B & _ & _ & C).
  split; [exact A |]. split; [exact B | exact (C eq_refl eq_refl)].
Defined.

Lemma update_preview_base_url (env : Env) (w : World) :
  styles_loaded env w ->
  content (preview (self (update_preview env None w)))
  = Some (render_html env (document w) (dark w), base_url_of env w).
Proof.
  intros [L1 L2 L3]. injection L1 as H1 H2 H3 H4 H5.
  unfold update_preview, base_url_of. rewrite H5, L3, format_html_template. simpl.
  by destruct (current_file_path (self w)) as [p |]; [destruct (Py.truthy p) |].
Qed.

(** X14.  In a running application, a file that was opened is on the
    page one quiet window later: the page holds the HTML of the file's
    text under the current theme, with the directory of the file as
    base URL, and the title shows the file's base name. *)
Theorem opened_file_is_previewed (env : Env) (p text : string) (ms : nat) (w : World) :
  reachable env w -> Py.truthy p = true -> read_text p (fs w) = inr text ->
  quiet_window <= ms ->
  let w' := step env (Elapse ms) (step env (OpenTriggered p) w) in
  content (preview (self w'))
  = Some (render_html env text (dark w), fromLocalFile (Py.dirname p +:+ Py.sep))
  /\ document w' = text
  /\ windowTitle (self w') = "Python Markdown Viewer - " +:+ Py.basename p
  /\ update_timer (self w') = None.
Proof.
  intros R Hp Hr Hms. cbv zeta.
  set (w1 := step env (OpenTriggered p) w).
  assert (styles_loaded env w1) as L1 by (apply step_loaded; by apply reachable_loaded).
  assert (update_timer (self w1) = Some (now w1 + quiet_window)
          /\ document w1 = text /\ dark w1 = dark w
          /\ current_file_path (self w1) = Some p
          /\ windowTitle (self w1) = "Python Markdown Viewer - " +:+ Py.basename p)
    as (Ht & Hdoc & Hdk & Hcp & Hti).
  { subst w1. simpl. unfold open_file. rewrite Hp. simpl. rewrite Hr. by split_and!. }
  clearbody w1. rewrite step_elapse. unfold elapse. rewrite Ht.
  destruct (Nat.leb_spec (now w1 + quiet_window) (now w1 + ms)); [| lia].
  set (x := on_self (set_update_timer None) (set_now (now w1 + quiet_window) w1)).
  set (y := update_preview env None x).
  assert (styles_loaded env x) as Lx
    by (apply (styles_loaded_kept env w1); [repeat split | exact L1]).
  pose proof (update_preview_base_url env x Lx) as Hc. fold y in Hc.
  destruct (update_preview_fields env None x) as (_ & _ & (_ & C2) & _ & (P1 & P2 & P3)).
  fold y in C2, P1, P2, P3.
  change (self (set_now (now w1 + ms) y)) with (self y).
  change (document (set_now (now w1 + ms) y)) with (document y).
  rewrite Hc, C2, P2, P3.
  assert (document x = document w1 /\ dark x = dark w1
          /\ base_url_of env x = base_url_of env w1
          /\ windowTitle (self x) = windowTitle (self w1)
          /\ update_timer (self x) = None) as (-> & -> & -> & -> & ->) by done.
  unfold base_url_of. rewrite Hcp, Hp, Hdoc, Hdk, Hti. done.
Qed.

Lemma opened_file_witness :
  let w' := step sample_env (Elapse 300)
              (step sample_env (OpenTriggered "/home/user/docs/notes.md") started_with_notes) in
  content (preview (self w'))
  = Some (render_html sample_env "# Notes" (dark started_with_notes),
          fromLocalFile "/home/user/docs/")
  /\ document w' = "# Notes"
  /\ windowTitle (self w') = "Python Markdown Viewer - notes.md"
  /\ update_timer (self w') = None.
Proof.
  apply (opened_file_is_previewed sample_env "/home/user/docs/notes.md" "# Notes" 300
           started_with_notes).
  - apply reachable_init.
  - reflexivity.
  - vm_compute. reflexivity.
  - unfold quiet_window. lia.
Defined.

(** X15.  After a Save As whose write was refused, the refused path
    stays current: the next Save shows no dialog and tries that path
    again, and the file that was current before is not written. *)
Theorem save_after_failed_save_as (p q answer : string) (e : Py.Exception) (w : World) :
  Py.truthy p = true -> faults (fs w) p = Some e ->
  current_file_path (self w) = Some q -> q <> p ->
  let w1 := save_file_as p w in
  let w2 := save_file answer w1 in
  save_destination answer w1 = Some p
  /\ file_dialogs w2 = file_dialogs w1
  /\ fs w2 = fs w
  /\ files (fs w2) !! q = files (fs w) !! q
  /\ head (trace w2)
     = Some (MessageBox Critical "Error" ("Could not save file: " +:+ Py.str_of_exception e)).
Proof.
  intros Hp Hf Hq Hne. cbv zeta.
  unfold save_file_as, save_destination, save_file, save_file_to, write_text.
  rewrite Hp. simpl. rewrite Hf. simpl. rewrite ?Hp, ?Hf. simpl. rewrite ?Hp, ?Hf.
  by split_and!.
Qed.

Lemma save_after_failed_save_as_witness :
  let w1 := save_file_as "/etc/notes.md" notes_edited in
  let w2 := save_file "" w1 in
  current_file_path (self notes_edited) = Some "/home/user/docs/notes.md"
  /\ document notes_edited = "# Notes, edited"
  /\ save_destination "" w1 = Some "/etc/notes.md"
  /\ files (fs w2) !! "/home/user/docs/notes.md" = Some "# Notes".
Proof.
  pose proof (save_after_failed_save_as "/etc/notes.md" "/home/user/docs/notes.md" ""
                (Py.OSError "[Errno 13] Permission denied: '/etc/notes.md'") notes_edited
                eq_refl eq_refl eq_refl ltac:(discriminate)) as (A & _ & _ & B & _).
  split; [reflexivity |]. split; [reflexivity |]. split; [exact A |].
  rewrite B. reflexivity.
Defined.

(** ** Fonts and PDF export *)

(** X16.  From an editor size above 4, Increase followed by Decrease
    brings the editor's size back.  Decrease followed by Increase does so
    only from a size above 5: at size 5 the decrease is refused and the
    increase then leaves 6.  Either way both calls send their JavaScript
    to the page. *)
Theorem font_menu_round_trip (w : World) :
  (4 < editor_size w)%Z ->
  editor_size (decrease_font (increase_font w)) = editor_size w
  /\ ((5 < editor_size w)%Z -> editor_size (increase_font (decrease_font w)) = editor_size w)
  /\ (editor_size w = 5%Z ->
      editor_size (decrease_font w) = 5%Z
      /\ editor_size (increase_font (decrease_font w)) = 6%Z)
  /\ count (fun e => match e with RunJavaScript _ => true | _ => false end)
           (trace (increase_font (decrease_font w)))
     = count (fun e => match e with RunJavaScript _ => true | _ => false end) (trace w) + 2.
Proof.
  intros Hs. unfold increase_font, decrease_font.
  assert (forall delta w0, editor_size (adjust_font_size delta w0)
            = if (editor_size w0 + delta / 2 >? 4)%Z
              then (editor_size w0 + delta / 2)%Z else editor_size w0) as Hstep.
  { intros delta w0. unfold editor_size, adjust_font_size. simpl.
    by destruct (_ >? 4)%Z. }
  assert (forall delta w0,
            trace (adjust_font_size delta w0)
            = RunJavaScript
                ("document.body.style.fontSize = (parseInt(window.getComputedStyle(document.body).fontSize) + "
                 +:+ Py.str_of_int delta +:+ ") + 'px';") :: trace w0) as Htr.
  { intros delta w0. unfold adjust_font_size. simpl. by destruct (_ >? 4)%Z. }
  rewrite !Hstep, !Htr.
  change (2 / 2)%Z with 1%Z. change (-2 / 2)%Z with (-1)%Z.
  assert (forall a b c : Z, (if (a >? 4)%Z then b else c)
                            = if decide (4 < a)%Z then b else c) as Hif.
  { intros a b c. destruct (Z.gtb_spec a 4); case_decide; done || lia. }
  rewrite !Hif.
  split_and!.
  - repeat case_decide; lia.
  - intros H5. repeat case_decide; lia.
  - intros H5. rewrite H5. by split.
  - simpl. lia.
Qed.

Lemma font_menu_round_trip_witness :
  editor_size started = 10%Z
  /\ editor_size (decrease_font (increase_font started)) = editor_size started.
Proof.
  split; [vm_compute; reflexivity |].
  apply (fun H => proj1 (font_menu_round_trip started H)). vm_compute. reflexivity.
Defined.

(** X17.  A cancelled PDF export dialog starts no print job and reports
    nothing.  When the call that starts the job raises, no job is
    queued, the failure status and error box are shown and no success is
    reported.  In no case does [export_to_pdf] touch the file system, the
    document or the current path. *)
Theorem export_pdf_cancel_and_failure (p : string) (e : Py.Exception)
        (raised : option Py.Exception) (w : World) :
  export_to_pdf "" raised w = log (FileDialog "Export to PDF") w
  /\ (Py.truthy p = true ->
      printing (preview (self (export_to_pdf p (Some e) w))) = printing (preview (self w))
      /\ trace (export_to_pdf p (Some e) w)
         = MessageBox Critical "Error" "Could not export PDF."
             :: ShowMessage "PDF export failed." (Some 3000%Z)
             :: FileDialog "Export to PDF" :: trace w)
  /\ fs (export_to_pdf p raised w) = fs w
  /\ document (export_to_pdf p raised w) = document w
  /\ current_file_path (self (export_to_pdf p raised w)) = current_file_path (self w).
Proof.
  split_and!.
  - reflexivity.
  - intros Hp. unfold export_to_pdf. rewrite Hp. by split.
  - unfold export_to_pdf. by destruct (Py.truthy p), raised.
  - unfold export_to_pdf. by destruct (Py.truthy p), raised.
  - unfold export_to_pdf. by destruct (Py.truthy p), raised.
Qed.

(** ** The window title *)

Lemma basename_no_separator p : has_separator (Py.basename p) = false.
Proof.
  unfold has_separator. induction p as [| c p IH]; [reflexivity |].
  simpl. destruct (Py.ascii_eqb c Py.slash) eqn:Hc; [exact IH |].
  destruct (existsb _ (list_ascii_of_string p)) eqn:Hp; [exact IH |].
  change (Py.ascii_eqb Py.slash c || existsb (Py.ascii_eqb Py.slash) (list_ascii_of_string p)
          = false).
  rewrite Hp. unfold Py.ascii_eqb in *. by rewrite Ascii.eqb_sym, Hc.
Qed.

Lemma basename_suffix p : exists dir, p = dir +:+ Py.basename p.
Proof.
  induction p as [| c p [dir IH]]; [by exists "" |].
  simpl. destruct (Py.ascii_eqb c Py.slash).
  - exists (String c dir).
    change (String c p = String c (dir +:+ Py.basename p)). by f_equal.
  - destruct (existsb _ _).
    + exists (String c dir).
      change (String c p = String c (dir +:+ Py.basename p)). by f_equal.
    + by exists "".
Qed.

(** X18.  After a successful open, and after any Save As that was not
    cancelled (whether or not its write succeeded), the window title is
    the fixed prefix followed by the last component of the chosen path:
    a suffix of the path that holds no separator. *)
Theorem window_title_shows_base_name (p : string) (w : World) :
  Py.truthy p = true ->
  windowTitle (self (save_file_as p w)) = "Python Markdown Viewer - " +:+ Py.basename p
  /\ (forall text, read_text p (fs w) = inr text ->
      windowTitle (self (open_file p w)) = "Python Markdown Viewer - " +:+ Py.basename p)
  /\ has_separator (Py.basename p) = false
  /\ exists dir, p = dir +:+ Py.basename p.
Proof.
  intros Hp. split_and!.
  - unfold save_file_as. rewrite Hp. cbv zeta.
    match goal with
    | |- context [save_file_to p ?x] => destruct (save_file_to_frame p x) as (_ & ->)
    end.
    reflexivity.
  - intros text Hr. unfold open_file. rewrite Hp. simpl. by rewrite Hr.
  - apply basename_no_separator.
  - apply basename_suffix.
Qed.

Lemma window_title_witness :
  windowTitle (self (save_file_as "/home/user/docs/todo.md" started))
  = "Python Markdown Viewer - todo.md"
  /\ has_separator (Py.basename "/home/user/docs/todo.md") = false.
Proof.
  pose proof (window_title_shows_base_name "/home/user/docs/todo.md" started eq_refl)
    as (A & _ & B & _).
  split; [exact A | exact B].
Defined.

(** ** The search bar *)

Lemma toggle_search_bar_flips b :
  search_bar_visible (toggle_search_bar b) = negb (search_bar_visible b)
  /\ search_input_text (toggle_search_bar b) = search_input_text b.
Proof. unfold toggle_search_bar. simpl. by destruct (negb _). Qed.

(** X19.  Each trigger of Find or Close flips the visibility of the
    search bar, so after [n] triggers it is visible exactly when [n] is
    odd (it starts hidden); toggling never changes the query.  Find Next
    keeps the bar as it is, makes one [find] call on the editor with the
    query, and none when the query is empty. *)
Theorem search_bar_parity (n : nat) (b : SearchBar) :
  search_bar_visible (Nat.iter n toggle_search_bar b)
  = xorb (Nat.odd n) (search_bar_visible b)
  /\ search_bar_visible (Nat.iter n toggle_search_bar search_bar_created) = Nat.odd n
  /\ search_input_text (Nat.iter n toggle_search_bar b) = search_input_text b
  /\ search_bar_visible (search_text b) = search_bar_visible b
  /\ (search_input_text b = "" -> search_text b = b)
  /\ (search_input_text b <> "" ->
      search_calls (search_text b) = Find (search_input_text b) :: search_calls b).
Proof.
  assert (forall b0, search_bar_visible (Nat.iter n toggle_search_bar b0)
                     = xorb (Nat.odd n) (search_bar_visible b0)
                     /\ search_input_text (Nat.iter n toggle_search_bar b0)
                        = search_input_text b0) as Hn.
  { intros b0. induction n as [| n [IHv IHt]];
      [simpl; by destruct (search_bar_visible b0) |].
    rewrite Nat.odd_succ, <- Nat.negb_odd.
    change (Nat.iter (S n) toggle_search_bar b0)
      with (toggle_search_bar (Nat.iter n toggle_search_bar b0)).
    destruct (toggle_search_bar_flips (Nat.iter n toggle_search_bar b0)) as (-> & ->).
    rewrite IHv, IHt. split; [| reflexivity].
    by destruct (Nat.odd n), (search_bar_visible b0). }
  split_and!.
  - apply Hn.
  - rewrite (proj1 (Hn search_bar_created)). simpl. by destruct (Nat.odd n).
  - apply Hn.
  - unfold search_text. by destruct (Py.truthy _).
  - intros He. unfold search_text. by rewrite He.
  - intros He. unfold search_text. destruct (search_input_text b); [done | reflexivity].
Qed.

(** ** How often the page is rendered *)

Lemma update_preview_render_le (env : Env) h w :
  render_calls (update_preview env h w) <= render_calls w + 1
  /\ pending (update_preview env h w) = pending w.
Proof.
  unfold update_preview. destruct (Py.format _ _);
    unfold render_calls, pending; simpl; split; lia || reflexivity.
Qed.

Lemma step_renders_kept (env : Env) ev w :
  match ev with
  | DarkModeTriggered | Elapse _ => True
  | _ => render_calls (step env ev w) = render_calls w
  end.
Proof. destruct ev; simpl; try exact I; unfold render_calls; frame_step. Qed.

Lemma step_render_budget (env : Env) ev w :
  render_calls (step env ev w) + pending (step env ev w)
  <= render_calls w + pending w + render_budget ev.
Proof.
  pose proof (step_renders_kept env ev w) as Hr.
  pose proof (step_clock_kept env ev w) as Hc.
  destruct ev;
    try (match type of Hc with
         | clock_kept _ _ =>
             destruct Hc as [_ Hc]; unfold pending; rewrite Hr, Hc; simpl; lia
         end).
  - rewrite Hr. unfold pending.
    change (update_timer (self (step env (TextEdited text) w)))
      with (Some (now w + quiet_window)).
    simpl. destruct (update_timer (self w)); lia.
  - simpl. unfold elapse.
    destruct (update_timer (self w)) as [due |] eqn:Ht;
      [destruct (Nat.leb due (now w + ms)) |];
      try (unfold pending, render_calls; simpl; rewrite Ht; lia).
    match goal with
    | |- context [update_preview env None ?x] =>
        destruct (update_preview_render_le env None x) as (Hle & Hp);
        change (render_calls (set_now (now w + ms) (update_preview env None x)))
          with (render_calls (update_preview env None x));
        change (pending (set_now (now w + ms) (update_preview env None x)))
          with (pending (update_preview env None x));
        rewrite Hp; change (pending x) with 0;
        change (render_calls x) with (render_calls w) in Hle
    end.
    unfold pending. rewrite Ht. simpl. lia.
  - rewrite Hr. unfold pending. simpl. unfold open_file.
    destruct (Py.truthy file_path); [| simpl; lia].
    cbv zeta. destruct (read_text _ _); [simpl; lia |].
    match goal with
    | |- context [update_timer (self ?x)] =>
        lazymatch x with
        | log _ _ => change (update_timer (self x)) with (Some (now w + quiet_window))
        end
    end.
    destruct (update_timer (self w)); lia.
  - simpl. unfold toggle_dark_mode. cbv zeta.
    match goal with
    | |- context [update_preview env None ?x] =>
        destruct (update_preview_render_le env None x) as (Hle & Hp);
        rewrite Hp;
        assert (render_calls x = render_calls w /\ pending x = pending w) as [Hx1 Hx2]
          by (unfold render_calls, pending; simpl; by destruct (negb _))
    end.
    rewrite Hx2. rewrite Hx1 in Hle. change (render_budget DarkModeTriggered) with 1. lia.
Qed.

(** X20.  From start-up on, the page is never rendered more often than
    once at start-up plus once per edit, opened file and theme toggle:
    renders made, plus the one still pending if any, stay within that
    budget whatever the events and however time passes between them. *)
Theorem renders_within_budget (env : Env) (d : FileSystem) (t0 : nat) (evs : list Event) :
  let w := run env evs (__init__ env d t0) in
  render_calls w + pending w <= 1 + total_budget evs.
Proof.
  cbv zeta.
  assert (forall w0, render_calls (run env evs w0) + pending (run env evs w0)
                     <= render_calls w0 + pending w0 + total_budget evs) as Hrun.
  { induction evs as [| ev evs IH]; intros w0; [simpl; lia |].
    rewrite run_cons. specialize (IH (step env ev w0)).
    pose proof (step_render_budget env ev w0). simpl. lia. }
  specialize (Hrun (__init__ env d t0)).
  assert (render_calls (__init__ env d t0) + pending (__init__ env d t0) <= 1) as Hinit.
  { unfold pending. destruct (init_fields env d t0) as (_ & _ & -> & _).
    unfold __init__. cbv zeta.
    match goal with
    | |- context [update_preview env None ?x] =>
        destruct (update_preview_render_le env None x) as (Hle & _);
        assert (render_calls x = 0) as Hx by (vm_compute; reflexivity)
    end.
    lia. }
  lia.
Qed.

(** ** The title and the current path *)

Lemma step_title_kept (env : Env) ev w :
  match ev with
  | OpenTriggered _ | SaveTriggered _ | SaveAsTriggered _ => True
  | _ => current_file_path (self (step env ev w)) = current_file_path (self w)
         /\ windowTitle (self (step env ev w)) = windowTitle (self w)
  end.
Proof. destruct ev; simpl; try exact I; frame_step. Qed.

Lemma save_file_as_title p w :
  title_follows_path w -> title_follows_path (save_file_as p w).
Proof.
  intros Hw. unfold save_file_as. destruct (Py.truthy p) eqn:Hp; [| exact Hw]. cbv zeta.
  match goal with
  | |- context [save_file_to p ?x] => destruct (save_file_to_frame p x) as (_ & Hs)
  end.
  unfold title_follows_path. rewrite Hs. simpl. split; [reflexivity |]. by intros ? [= <-].
Qed.

Lemma step_title_follows (env : Env) ev w :
  title_follows_path w -> title_follows_path (step env ev w).
Proof.
  intros Hw. pose proof (step_title_kept env ev w) as Hf.
  destruct ev;
    try (match type of Hf with
         | _ /\ _ => destruct Hf as [Hp Ht]; unfold title_follows_path; by rewrite Hp, Ht
         end).
  - simpl. unfold open_file. destruct (Py.truthy file_path) eqn:Hp; [| exact Hw].
    simpl. destruct (read_text _ _); [exact Hw |].
    split; [reflexivity |]. simpl. by intros ? [= <-].
  - simpl. unfold save_file.
    destruct (current_file_path (self w)) as [q |] eqn:Hq;
      [destruct (Py.truthy q) |]; try by apply save_file_as_title.
    destruct (save_file_to_frame q w) as (_ & Hs).
    unfold title_follows_path. by rewrite Hs.
  - by apply save_file_as_title.
Qed.

(** X21.  In a running application the window title always names the
    current file: it is the bare application name while there is no
    current path, and the application name followed by the base name of
    the current path otherwise; the current path is never empty. *)
Theorem window_title_follows_path (env : Env) (w : World) :
  reachable env w ->
  windowTitle (self w) = title_of (current_file_path (self w))
  /\ forall p, current_file_path (self w) = Some p -> Py.truthy p = true.
Proof.
  induction 1 as [d t0 | ev w _ IH]; [| by apply step_title_follows].
  destruct (init_fields env d t0) as (_ & _ & _ & _ & _ & _ & _ & Hp & _).
  rewrite Hp. split; [| discriminate].
  unfold __init__. cbv zeta.
  match goal with
  | |- context [update_preview env None ?x] =>
      destruct (update_preview_fields env None x) as (_ & _ & _ & _ & (_ & -> & _))
  end.
  vm_compute. reflexivity.
Qed.

Lemma window_title_follows_path_witness :
  windowTitle (self notes_edited) = "Python Markdown Viewer - notes.md"
  /\ current_file_path (self notes_edited) = Some "/home/user/docs/notes.md".
Proof.
  split; [| reflexivity].
  rewrite (proj1 (window_title_follows_path sample_env notes_edited
                    ltac:(apply reachable_step, reachable_step, reachable_init))).
  reflexivity.
Defined.
